(** * Sequelize query-interface facade: a shallow embedding

    This development embeds
    [packages/core/src/dialects/abstract/query-interface-typescript.ts]
    (class [AbstractQueryInterfaceTypeScript]) and states the properties its
    specification claims about schema operations, [describeTable] and the
    scoped suspension of foreign-key checks.

    JavaScript objects used as option bags are finite maps from property names
    to values ([gmap string Value]); the option objects the facade receives by
    reference live in a store, so that in-place mutation and aliasing are
    visible.  [async] functions are computations in a state-and-exception
    monad over a world made of that store, the trace of observable events and
    the state of the backend. *)

From stdpp Require Import gmap strings list fin_maps pretty.

Set Warnings "-register-all".
Open Scope string_scope.

(** ** JavaScript values *)

(** Locations of stored objects, and the opaque handles of connections and
    transactions. *)
Definition loc := positive.
Definition Connection := nat.
Definition Transaction := nat.

Inductive Value : Type :=
| VUndefined
| VNull
| VBool (b : bool)
| VNum (n : Z)
| VStr (s : string)
| VArr (elems : list Value)
| VObj (fields : gmap string Value)
| VConn (c : Connection)
| VTxn (t : Transaction)
| VRef (l : loc).

Arguments VRef l%_positive.

(** An option bag: own enumerable properties of a plain object. *)
Abbreviation Obj := (gmap string Value).
Abbreviation Store := (gmap loc (gmap string Value)).

(** [ToBoolean]: the test performed by [if (x)] and [x ? a : b]. *)
Definition truthy (v : Value) : bool :=
  match v with
  | VUndefined | VNull => false
  | VBool b => b
  | VNum n => negb (n =? 0)%Z
  | VStr s => match s with EmptyString => false | _ => true end
  | VArr _ | VObj _ | VConn _ | VTxn _ | VRef _ => true
  end.

Inductive JsType := TyUndefined | TyObject | TyBoolean | TyNumber | TyString.

(** [typeof v]; functions are not values of this model, they are passed as
    callbacks of their own type. *)
Definition typeof (v : Value) : JsType :=
  match v with
  | VUndefined => TyUndefined
  | VNull => TyObject
  | VBool _ => TyBoolean
  | VNum _ => TyNumber
  | VStr _ => TyString
  | VArr _ | VObj _ | VConn _ | VTxn _ | VRef _ => TyObject
  end.

Definition isNull (v : Value) : bool :=
  match v with VNull => true | _ => false end.

Definition isString (v : Value) : bool :=
  match v with VStr _ => true | _ => false end.

(** [typeof v === 'object' && v !== null] *)
Definition isNonNullObject (v : Value) : bool :=
  match typeof v with TyObject => negb (isNull v) | _ => false end.

Fixpoint chars (s : string) : list Value :=
  match s with
  | EmptyString => []
  | String a r => VStr (String a EmptyString) :: chars r
  end.

(** Index-keyed own properties of an array or of a string. *)
Definition indexed (l : list Value) : Obj :=
  list_to_map (imap (λ i x, (pretty i, x)) l).

(** Own enumerable properties copied by the spread [{ ...v }].  Spreading
    [undefined], [null], a boolean or a number copies nothing; connection and
    transaction handles are opaque and never spread by the facade. *)
Definition ownProps (h : Store) (v : Value) : Obj :=
  match v with
  | VRef l => default ∅ (h !! l)
  | VObj f => f
  | VStr s => indexed (chars s)
  | VArr l => indexed l
  | VUndefined | VNull | VBool _ | VNum _ | VConn _ | VTxn _ => ∅
  end.

Definition lookupProp (o : Obj) (k : string) : Value := default VUndefined (o !! k).

(** JavaScript [String(v)], as performed by a template literal. *)
Fixpoint toStr (v : Value) : string :=
  match v with
  | VUndefined => "undefined"
  | VNull => "null"
  | VBool true => "true"
  | VBool false => "false"
  | VNum n => pretty n
  | VStr s => s
  | VArr l =>
      let elem x := match x with VUndefined | VNull => "" | _ => toStr x end in
      (fix join (l : list Value) : string :=
         match l with
         | [] => ""
         | [x] => elem x
         | x :: r => elem x +:+ "," +:+ join r
         end) l
  | VObj _ | VConn _ | VTxn _ | VRef _ => "[object Object]"
  end.

Definition noOwnProps (o : Obj) : bool := bool_decide (size o = 0%nat).

(** lodash [isEmpty]: [null] and [undefined] are empty, arrays and strings are
    empty when their length is zero, plain objects when they have no own
    property, and every other primitive is empty. *)
Definition isEmpty (h : Store) (v : Value) : bool :=
  match v with
  | VUndefined | VNull => true
  | VBool _ | VNum _ => true
  | VStr s => match s with EmptyString => true | _ => false end
  | VArr l => match l with [] => true | _ => false end
  | VObj f => noOwnProps f
  | VRef l => noOwnProps (default ∅ (h !! l))
  | VConn _ | VTxn _ => false
  end.

(** ** Errors *)

(** What the facade can observe of a thrown error: its class, its message
    and, when it has a [cause], the [code] of that cause.  [BaseError] is the
    class of sequelize's own errors ([errors], not part of the sources at
    hand): an error raised for a statement the backend rejected is an
    instance of it and wraps the driver's error, with its code, as [cause]. *)
Inductive ErrorClass := ClsError | ClsTypeError | ClsBaseError.

Record JsError : Type := mkError {
  errClass : ErrorClass;
  message : string;
  causeCode : option string;
}.

(** [new Error(msg)] and [new TypeError(msg)] *)
Definition Error (msg : string) : JsError := mkError ClsError msg None.
Definition TypeError (msg : string) : JsError := mkError ClsTypeError msg None.

(** [error instanceof BaseError] *)
Definition instanceofBaseError (e : JsError) : bool :=
  match errClass e with ClsBaseError => true | _ => false end.

Inductive Outcome (A : Type) : Type :=
| Ok (a : A)
| Throw (e : JsError).
Arguments Ok {A} a.
Arguments Throw {A} e.

(** ** Observable events *)

Inductive Event : Type :=
| EvQuery (sql : string) (options : option (gmap string Value))
| EvLease (c : Connection)
| EvLeaseFailed (e : JsError)
| EvRelease (c : Connection)
| EvDeprecation (name : string)
| EvClsInjection.

(** Modelled from the spec: [QueryTypes] of [query-types], which is not part
    of the sources at hand; of the closed enumeration of query intents, the
    two members the facade names. *)
Module QueryTypes.
Definition SELECT : string := "SELECT".
Definition DESCRIBE : string := "DESCRIBE".
End QueryTypes.

(** ** Collaborators of the facade *)

Record QueryWithBindParams := {
  query : string;
  bind : Value;
}.

(** [TableNameWithSchema], the object returned by [extractTableDetails], a
    new one for every call; [describeTable] assigns its [schema] and its
    [delimiter] from caller-supplied values, which the record keeps as they
    are. *)
Record TableDetails := {
  tableName : string;
  schema : Value;
  delimiter : Value;
}.

(** The dialect's SQL generator, consumed through its interface: pure
    functions from structured intents to SQL text. *)
Record AbstractQueryGenerator := {
  createSchemaQuery : string → option (gmap string Value) → string;
  dropSchemaQuery : string → string + QueryWithBindParams;
  listSchemasQuery : option (gmap string Value) → string;
  describeTableQuery : TableDetails → string;
  getToggleForeignKeyChecksQuery : bool → string;
  extractTableDetails : Value → TableDetails;
}.

(** The [Sequelize] instance as the facade uses it, over a backend state [B]:
    the execution of one statement with its options, the connection
    provider's [lease] and [release], and the ambient transaction of the
    current call chain. *)
Record Sequelize (B : Type) := {
  execute : string → option (gmap string Value) → B → Outcome Value * B;
  lease : B → Outcome Connection * B;
  release : Connection → B → B;
  disableClsTransactions : bool;
  getCurrentClsTransaction : option Transaction;
}.
Arguments execute {B} _ _ _ _.
Arguments lease {B} _ _.
Arguments release {B} _ _ _.
Arguments disableClsTransactions {B} _.
Arguments getCurrentClsTransaction {B} _.

(** ** Worlds and computations *)

Record World (B : Type) := mkWorld {
  heap : gmap loc (gmap string Value);
  trace : list Event;
  backend : B;
}.
Arguments mkWorld {B} _ _ _.
Arguments heap {B} _.
Arguments trace {B} _.
Arguments backend {B} _.

(** An [async] function body: it runs to a value or to a thrown error, and
    leaves a world behind in both cases. *)
Definition M (B A : Type) : Type := World B → Outcome A * World B.

Section Monad.
Context {B : Type}.

#[global] Instance M_ret : MRet (M B) := λ A a w, (Ok a, w).

Definition throw {A} (e : JsError) : M B A := λ w, (Throw e, w).

#[global] Instance M_bind : MBind (M B) := λ A C k m w,
  match m w with
  | (Ok a, w') => k a w'
  | (Throw e, w') => (Throw e, w')
  end.

(** [try { body } finally { fin }]: [fin] runs whatever [body] did; when
    [fin] completes normally the completion of [body] stands, and when [fin]
    throws, its error replaces the completion of [body]. *)
Definition try_finally {A} (body : M B A) (fin : M B unit) : M B A :=
  λ w, let '(r, w1) := body w in
       match fin w1 with
       | (Ok _, w2) => (r, w2)
       | (Throw e, w2) => (Throw e, w2)
       end.

(** [try { body } catch (error) { handler }] *)
Definition try_catch {A} (body : M B A) (handler : JsError → M B A) : M B A :=
  λ w, match body w with
       | (Ok a, w1) => (Ok a, w1)
       | (Throw e, w1) => handler e w1
       end.

Definition emit (ev : Event) : M B unit :=
  λ w, (Ok tt, mkWorld (heap w) (trace w ++ [ev])%list (backend w)).

(** A fresh object literal. *)
Definition alloc (o : Obj) : M B loc :=
  λ w, let l := fresh (dom (heap w)) in
       (Ok l, mkWorld (<[l := o]> (heap w)) (trace w) (backend w)).

Definition load (l : loc) : M B Obj :=
  λ w, (Ok (default ∅ (heap w !! l)), w).

(** [obj.k = v] on a stored object. *)
Definition setProp (l : loc) (k : string) (v : Value) : M B unit :=
  λ w, (Ok tt,
        mkWorld (<[l := <[k := v]> (default ∅ (heap w !! l))]> (heap w))
                (trace w) (backend w)).

(** [{ ...v }] *)
Definition spread (v : Value) : M B Obj :=
  λ w, (Ok (ownProps (heap w) v), w).

(** [v.k]: reading a property of [undefined] or [null] throws; primitives
    and arrays have no own property of the names the facade reads. *)
Definition getProp (v : Value) (k : string) : M B Value :=
  λ w, match v with
       | VUndefined | VNull =>
           (Throw (TypeError ("Cannot read properties of " +:+ toStr v)), w)
       | VRef l => (Ok (lookupProp (default ∅ (heap w !! l)) k), w)
       | VObj f => (Ok (lookupProp f k), w)
       | VBool _ | VNum _ | VStr _ | VArr _ | VConn _ | VTxn _ => (Ok VUndefined, w)
       end.
End Monad.

(** The callback of [withoutForeignKeyChecks]: it receives the connection and
    is any computation over the world. *)
Definition WithoutForeignKeyChecksCallback (B T : Type) : Type := Value → M B T.

(** ** The facade *)

Section Facade.
Context {B : Type}.
Variable queryGenerator : AbstractQueryGenerator.
Variable sequelize : Sequelize B.

(** What [queryRaw] receives as its [options] argument. *)
Definition snapshot (h : Store) (options : Value) : option Obj :=
  match options with
  | VRef l => Some (default ∅ (h !! l))
  | VObj f => Some f
  | _ => None
  end.

(** [sequelize.queryRaw(sql, options)]: one observable call, carried out by
    the execution core. *)
Definition queryRaw (sql : string) (options : Value) : M B Value :=
  λ w, let o := snapshot (heap w) options in
       let '(r, b') := execute sequelize sql o (backend w) in
       (r, mkWorld (heap w) (trace w ++ [EvQuery sql o])%list b').

(** Modelled from the spec: [Sequelize#withConnection], which is not part of
    the sources at hand.  Case 3 of the connection resolution order: lease a
    handle from the connection provider for the duration of the call and
    release it unconditionally afterwards, on success and on failure; a
    failed lease propagates its error and holds no handle. *)
Definition withConnection {T} (callback : Connection → M B T) : M B T :=
  λ w, match lease sequelize (backend w) with
       | (Throw e, b') =>
           (Throw e, mkWorld (heap w) (trace w ++ [EvLeaseFailed e])%list b')
       | (Ok connection, b') =>
           try_finally
             (callback connection)
             (λ w1, (Ok tt, mkWorld (heap w1) (trace w1 ++ [EvRelease connection])%list
                                    (release sequelize connection (backend w1))))
             (mkWorld (heap w) (trace w ++ [EvLease connection])%list b')
       end.

(** Modelled from the spec: [setTransactionFromCls] of [model-internals],
    which is not part of the sources at hand.  When no explicit transaction
    is present in the options, the transaction implicitly active for the
    current call chain, if any, is injected into them; implicit propagation
    can be disabled for the whole instance. *)
Definition setTransactionFromCls (options : loc) : M B unit :=
  emit EvClsInjection;;
  o ← load options;
  match lookupProp o "transaction", disableClsTransactions sequelize,
        getCurrentClsTransaction sequelize with
  | VUndefined, false, Some t => setProp options "transaction" (VTxn t)
  | _, _, _ => mret tt
  end.

(** Modelled from the spec: [noSchemaParameter] and
    [noSchemaDelimiterParameter] of [utils/deprecations], which are not part
    of the sources at hand.  Each emits a non-fatal deprecation warning and
    returns. *)
Definition noSchemaParameter : M B unit := emit (EvDeprecation "noSchemaParameter").
Definition noSchemaDelimiterParameter : M B unit :=
  emit (EvDeprecation "noSchemaDelimiterParameter").

(** The generator reads the option object it is handed. *)
Definition peek (options : Value) : M B (option Obj) :=
  λ w, (Ok (snapshot (heap w) options), w).

Definition createSchema (schema : string) (options : Value) : M B unit :=
  o ← peek options;
  let sql := createSchemaQuery queryGenerator schema o in
  queryRaw sql options;; mret tt.

Definition dropSchema (schema : string) (options : Value) : M B unit :=
  match dropSchemaQuery queryGenerator schema with
  | inl sql =>
      queryRaw sql options;; mret tt
  | inr q =>
      o ← spread options;
      queryRawOptions ← alloc (<["bind" := bind q]> o);
      queryRaw (query q) (VRef queryRawOptions);; mret tt
  end.

(** [value => (value.schema_name ? value.schema_name : value)] *)
Definition schemaNameOf (value : Value) : M B Value :=
  schema_name ← getProp value "schema_name";
  mret (if truthy schema_name then schema_name else value).

(** [Array.prototype.flatMap]: the results are concatenated, and a result
    that is itself an array contributes its elements. *)
Definition flatten1 (v : Value) : list Value :=
  match v with VArr elems => elems | _ => [v] end.

Fixpoint flatMap (f : Value → M B Value) (l : list Value) : M B (list Value) :=
  match l with
  | [] => mret []
  | x :: r => y ← f x; ys ← flatMap f r; mret (flatten1 y ++ ys)%list
  end.

Definition showAllSchemas (options : Value) : M B (list Value) :=
  seen ← peek options;
  let showSchemasSql := listSchemasQuery queryGenerator seen in
  o ← spread options;
  queryRawOptions ← alloc (<["type" := VStr QueryTypes.SELECT]> (<["raw" := VBool true]> o));
  schemaNames ← queryRaw showSchemasSql (VRef queryRawOptions);
  match schemaNames with
  | VArr rows => flatMap schemaNameOf rows
  | _ => throw (TypeError "schemaNames.flatMap is not a function")
  end.

Definition noDescriptionMessage (table : TableDetails) : string :=
  "No description found for table " +:+ tableName table
    +:+ (if truthy (schema table) then " in schema " +:+ toStr (schema table) else "")
    +:+ ". Check the table name and schema; remember, they _are_ case sensitive.".

Definition withSchema (table : TableDetails) (v : Value) : TableDetails :=
  {| tableName := tableName table; schema := v; delimiter := delimiter table |}.

Definition withDelimiter (table : TableDetails) (v : Value) : TableDetails :=
  {| tableName := tableName table; schema := schema table; delimiter := v |}.

(** The first statements of [describeTable], up to the generation of the
    SQL: the table reference and its legacy overrides.  An assignment
    [table.schema = v] is the update of the record. *)
Definition resolveTable (tableName : Value) (options : Value) : M B TableDetails :=
  let table := extractTableDetails queryGenerator tableName in
  table ← (if isString options
           then noSchemaParameter;; mret (withSchema table options)
           else mret table);
  if isNonNullObject options then
    schema ← getProp options "schema";
    table ← (if truthy schema
             then noSchemaParameter;; mret (withSchema table schema)
             else mret table);
    schemaDelimiter ← getProp options "schemaDelimiter";
    if truthy schemaDelimiter
    then noSchemaDelimiterParameter;; mret (withDelimiter table schemaDelimiter)
    else mret table
  else mret table.

Definition isEmptyM (data : Value) : M B bool :=
  λ w, (Ok (isEmpty (heap w) data), w).

(** [error instanceof BaseError && error.cause?.code === 'ER_NO_SUCH_TABLE'] *)
Definition isNoSuchTable (error : JsError) : bool :=
  instanceofBaseError error
  && bool_decide (causeCode error = Some "ER_NO_SUCH_TABLE").

Definition describeTable (tableName : Value) (options : Value) : M B Value :=
  table ← resolveTable tableName options;
  let sql := describeTableQuery queryGenerator table in
  o ← spread options;
  queryOptions ← alloc (<["type" := VStr QueryTypes.DESCRIBE]> o);
  try_catch
    (data ← queryRaw sql (VRef queryOptions);
     empty ← isEmptyM data;
     if empty : bool
     then throw (Error (noDescriptionMessage table))
     else mret data)
    (λ error,
       if isNoSuchTable error
       then throw (Error (noDescriptionMessage table))
       else throw error).

Definition unsafeToggleForeignKeyChecks (enable : bool) (options : Value) : M B unit :=
  queryRaw (getToggleForeignKeyChecksQuery queryGenerator enable) options;; mret tt.

(** [cb(arg)] where [cb] may be [undefined] behind a non-null assertion. *)
Definition call {T} (cb : option (WithoutForeignKeyChecksCallback B T)) (arg : Value) : M B T :=
  match cb with
  | Some f => f arg
  | None => throw (TypeError "cb is not a function")
  end.

(** The private method [#withoutForeignKeyChecks]. *)
Definition withoutForeignKeyChecks_ {T} (options : Value)
    (cb : option (WithoutForeignKeyChecksCallback B T)) : M B T :=
  try_finally
    (unsafeToggleForeignKeyChecks false options;;
     connection ← getProp options "connection";
     call cb connection)
    (unsafeToggleForeignKeyChecks true options).

Definition withoutForeignKeyChecks {T}
    (optionsOrCallback : Value + WithoutForeignKeyChecksCallback B T)
    (maybeCallback : option (WithoutForeignKeyChecksCallback B T)) : M B T :=
  '(options, callback) ←
    match optionsOrCallback with
    | inr f => options ← alloc ∅; mret (options, Some f)
    | inl v => o ← spread v; options ← alloc o; mret (options, maybeCallback)
    end;
  setTransactionFromCls options;;
  o ← load options;
  if truthy (lookupProp o "connection")
  then withoutForeignKeyChecks_ (VRef options) callback
  else
    withConnection (λ connection,
      o ← load options;
      scoped ← alloc (<["connection" := VConn connection]> o);
      withoutForeignKeyChecks_ (VRef scoped) callback).
End Facade.

(** ** Vocabulary of the properties *)

Section Vocabulary.
Context {B T : Type}.

(** The callback a call of [withoutForeignKeyChecks] resolves to, for its two
    call shapes [(cb)] and [(options, cb)]. *)
Definition callbackOf
    (optionsOrCallback : Value + WithoutForeignKeyChecksCallback B T)
    (maybeCallback : option (WithoutForeignKeyChecksCallback B T)) :
    option (WithoutForeignKeyChecksCallback B T) :=
  match optionsOrCallback with
  | inr f => Some f
  | inl _ => maybeCallback
  end.

(** The content of the internal options object when it is created: [{}] or
    [{ ...optionsOrCallback }]. *)
Definition optionsCopy (h : Store)
    (optionsOrCallback : Value + WithoutForeignKeyChecksCallback B T) : gmap string Value :=
  match optionsOrCallback with
  | inr _ => ∅
  | inl v => ownProps h v
  end.

(** The content of an options object once [setTransactionFromCls] has run
    on it. *)
Definition injected (sequelize : Sequelize B) (o : gmap string Value) : gmap string Value :=
  match lookupProp o "transaction", disableClsTransactions sequelize,
        getCurrentClsTransaction sequelize with
  | VUndefined, false, Some t => <["transaction" := VTxn t]> o
  | _, _, _ => o
  end.

(** The callback does not write to the object stored at [l]: whenever that
    object exists when the callback is called, it holds the same properties
    once the callback has settled.  Nothing is asked of a world in which [l]
    is still free, so a callback may create objects of its own. *)
Definition callback_keeps (cb : option (WithoutForeignKeyChecksCallback B T)) (l : loc) : Prop :=
  ∀ (v : Value) (w : World B),
    is_Some (heap w !! l) → heap (call cb v w).2 !! l = heap w !! l.




(** What the try block of a scope does once the disabling statement has
    completed with [r0]: the callback runs on the connection of the scope, or
    the failure of the statement stands. *)
Definition scopeBody (cb : option (WithoutForeignKeyChecksCallback B T))
    (connection : Value) (r0 : Outcome unit) (w0 : World B) : Outcome T * World B :=
  match r0 with
  | Ok _ => call cb connection w0
  | Throw e => (Throw e, w0)
  end.
End Vocabulary.

(** *** Table resolution, as the specification words it *)

(** [v.k] for a value that is neither [undefined] nor [null]. *)
Definition propOf (h : Store) (v : Value) (k : string) : Value :=
  match v with
  | VRef l => lookupProp (default ∅ (h !! l)) k
  | VObj f => lookupProp f k
  | _ => VUndefined
  end.

(** The deprecated parameter paths of [describeTable] as the code detects
    them: a string as second argument, or an options object whose [schema]
    or [schemaDelimiter] is truthy. *)
Definition usesDeprecatedPath (h : Store) (options : Value) : bool :=
  isString options
  || (isNonNullObject options
      && (truthy (propOf h options "schema") || truthy (propOf h options "schemaDelimiter"))).

(** Legacy semantics: the supplied schema overrides the schema of the table
    reference, the supplied delimiter overrides its delimiter. *)
Definition legacyTable (queryGenerator : AbstractQueryGenerator) (h : Store)
    (tableName options : Value) : TableDetails :=
  let table := extractTableDetails queryGenerator tableName in
  if isString options then withSchema table options
  else if isNonNullObject options then
    let table1 :=
      if truthy (propOf h options "schema")
      then withSchema table (propOf h options "schema") else table in
    if truthy (propOf h options "schemaDelimiter")
    then withDelimiter table1 (propOf h options "schemaDelimiter") else table1
  else table.

(** The deprecation warnings of a call, in the order they are emitted. *)
Definition deprecationWarnings (h : Store) (options : Value) : list Event :=
  if isString options then [EvDeprecation "noSchemaParameter"]
  else if isNonNullObject options then
    ((if truthy (propOf h options "schema")
      then [EvDeprecation "noSchemaParameter"] else [])
     ++ (if truthy (propOf h options "schemaDelimiter")
         then [EvDeprecation "noSchemaDelimiterParameter"] else []))%list
  else [].

Definition isDeprecation (ev : Event) : bool :=
  match ev with EvDeprecation _ => true | _ => false end.

(** The options [describeTable] hands to [queryRaw]. *)
Definition describeOptions (h : Store) (options : Value) : gmap string Value :=
  <["type" := VStr QueryTypes.DESCRIBE]> (ownProps h options).

(** *** Executed statements *)

(** The bind parameters a call of [queryRaw] carries in its options. *)
Definition bindParameters (o : option (gmap string Value)) : Value :=
  match o with
  | Some o => lookupProp o "bind"
  | None => VUndefined
  end.

(** No bind parameter at all: no [bind], an empty array or an empty object. *)
Definition noParameters (v : Value) : bool :=
  match v with
  | VUndefined | VNull => true
  | VArr l => match l with [] => true | _ => false end
  | VObj f => noOwnProps f
  | _ => false
  end.

(** The options of a call other than its bind parameters. *)
Definition otherOptions (o : option (gmap string Value)) : gmap string Value :=
  delete "bind" (default ∅ o).

(** Two executed statements are equivalent when they have the same SQL text,
    the same bind parameters, none and empty being the same, and otherwise
    the same options. *)
Definition equivalentStatements (ev1 ev2 : Event) : Prop :=
  match ev1, ev2 with
  | EvQuery sql1 o1, EvQuery sql2 o2 =>
      sql1 = sql2
      ∧ otherOptions o1 = otherOptions o2
      ∧ (bindParameters o1 = bindParameters o2
         ∨ (noParameters (bindParameters o1) = true
            ∧ noParameters (bindParameters o2) = true))
  | _, _ => False
  end.

(** A value of type [QueryRawOptions | undefined]. *)
Definition isOptionsArgument (v : Value) : bool :=
  match v with
  | VUndefined | VRef _ | VObj _ => true
  | _ => false
  end.

(** *** Schema rows *)

Definition isNullish (v : Value) : bool :=
  match v with VUndefined | VNull => true | _ => false end.

(** What one raw row contributes to the result of [showAllSchemas]. *)
Definition contribution (h : Store) (row : Value) : list Value :=
  let schema_name := propOf h row "schema_name" in
  flatten1 (if truthy schema_name then schema_name else row).

(** A row that names the schema [s]: the bare string, or a mapping whose
    [schema_name] is the non-empty string [s]. *)
Definition names (row : Value) (s : string) : Prop :=
  row = VStr s
  ∨ ∃ f : gmap string Value, row = VObj f ∧ f !! "schema_name" = Some (VStr s) ∧ s ≠ "".

(** The options [showAllSchemas] hands to [queryRaw]. *)
Definition listOptions (h : Store) (options : Value) : gmap string Value :=
  <["type" := VStr QueryTypes.SELECT]> (<["raw" := VBool true]> (ownProps h options)).

(** *** Frames, discarded results and error classes *)

(** Every object that is stored in [w] holds the same properties in [w']. *)
Definition storeKept {B : Type} (w w' : World B) : Prop :=
  ∀ l : loc, is_Some (heap w !! l) → heap w' !! l = heap w !! l.

(** The completion of [await f(..)] used as a statement: the value is
    dropped, an error stays. *)
Definition discarding {A : Type} (r : Outcome A) : Outcome unit :=
  match r with
  | Ok _ => Ok tt
  | Throw e => Throw e
  end.

Definition isTypeError (e : JsError) : bool :=
  match errClass e with ClsTypeError => true | _ => false end.

(** The outcome of a computation is a thrown [TypeError]. *)
Definition throwsTypeError {A : Type} (r : Outcome A) : Prop :=
  ∃ e : JsError, r = Throw e ∧ isTypeError e = true.

(** A backend obeys the enabling statement of the dialect: run on a
    connection, from any state, the statement succeeds and leaves the checks
    of that connection on.  [fkChecks] reads the checks off the state of the
    backend. *)
Definition obeysEnabling {B : Type} (queryGenerator : AbstractQueryGenerator)
    (sequelize : Sequelize B) (fkChecks : B → Connection → bool) : Prop :=
  ∀ (o : gmap string Value) (c : Connection) (b : B),
    lookupProp o "connection" = VConn c →
    ∃ v b',
      execute sequelize (getToggleForeignKeyChecksQuery queryGenerator true) (Some o) b
        = (Ok v, b')
      ∧ fkChecks b' c = true.

(** ** Concrete collaborators, used to run the facade on examples *)

Module Examples.
(** A MySQL-flavoured generator; [dropSchemaQuery] returns plain SQL. *)
Definition generator : AbstractQueryGenerator := {|
  createSchemaQuery s _ := "CREATE SCHEMA " +:+ s;
  dropSchemaQuery s := inl ("DROP SCHEMA " +:+ s);
  listSchemasQuery _ := "SHOW SCHEMAS";
  describeTableQuery t :=
    "DESCRIBE " +:+ toStr (schema t) +:+ toStr (delimiter t) +:+ tableName t;
  getToggleForeignKeyChecksQuery enable :=
    if enable then "SET FOREIGN_KEY_CHECKS=1" else "SET FOREIGN_KEY_CHECKS=0";
  extractTableDetails v :=
    {| tableName := toStr v; schema := VStr "public"; delimiter := VStr "." |};
|}.

(** The same generator, with [dropSchemaQuery] returning the query together
    with an empty list of bind parameters. *)
Definition pairGenerator : AbstractQueryGenerator := {|
  createSchemaQuery := createSchemaQuery generator;
  dropSchemaQuery s := inr {| query := "DROP SCHEMA " +:+ s; bind := VArr [] |};
  listSchemasQuery := listSchemasQuery generator;
  describeTableQuery := describeTableQuery generator;
  getToggleForeignKeyChecksQuery := getToggleForeignKeyChecksQuery generator;
  extractTableDetails := extractTableDetails generator;
|}.

(** A scripted backend: every statement consumes the next scripted outcome;
    the pool always hands out connection [7]. *)
Definition scripted : Sequelize (list (Outcome Value)) := {|
  execute _ _ b :=
    match b with
    | r :: b' => (r, b')
    | [] => (Ok (VArr []), [])
    end;
  lease b := (Ok 7%nat, b);
  release _ b := b;
  disableClsTransactions := false;
  getCurrentClsTransaction := None;
|}.

(** The scripted backend, called inside the scope of transaction [5]. *)
Definition ambient : Sequelize (list (Outcome Value)) := {|
  execute := execute scripted;
  lease := lease scripted;
  release := release scripted;
  disableClsTransactions := false;
  getCurrentClsTransaction := Some 5%nat;
|}.

(** A backend that keeps one foreign-key flag per connection. *)
Definition flagged : Sequelize (gmap nat bool) := {|
  execute sql o b :=
    match lookupProp (default ∅ o) "connection" with
    | VConn c =>
        if String.eqb sql "SET FOREIGN_KEY_CHECKS=1" then (Ok VNull, <[c := true]> b)
        else if String.eqb sql "SET FOREIGN_KEY_CHECKS=0" then (Ok VNull, <[c := false]> b)
        else (Ok (VArr []), b)
    | _ => (Throw (Error "no connection"), b)
    end;
  lease b := (Ok 7%nat, b);
  release _ b := b;
  disableClsTransactions := false;
  getCurrentClsTransaction := None;
|}.

Definition flagOf (b : gmap nat bool) (c : Connection) : bool := default true (b !! c).

(** A backend that keeps the same flags and rejects the enabling statement
    on a connection whose checks are already on. *)
Definition strict : Sequelize (gmap nat bool) := {|
  execute sql o b :=
    match lookupProp (default ∅ o) "connection" with
    | VConn c =>
        if String.eqb sql "SET FOREIGN_KEY_CHECKS=1" then
          if flagOf b c
          then (Throw (Error "foreign key checks are already enabled"), b)
          else (Ok VNull, <[c := true]> b)
        else if String.eqb sql "SET FOREIGN_KEY_CHECKS=0" then (Ok VNull, <[c := false]> b)
        else (Ok (VArr []), b)
    | _ => (Throw (Error "no connection"), b)
    end;
  lease b := (Ok 7%nat, b);
  release _ b := b;
  disableClsTransactions := false;
  getCurrentClsTransaction := None;
|}.

Definition world0 (script : list (Outcome Value)) : World (list (Outcome Value)) :=
  mkWorld ∅ [] script.

(** A store holding one option object, [{ connection: <connection 7> }]. *)
Definition pinned (script : list (Outcome Value)) : World (list (Outcome Value)) :=
  mkWorld {[ 1%positive := {[ "connection" := VConn 7 ]} ]} [] script.

(** A store holding the caller's options [{ raw: true }]. *)
Definition calling (script : list (Outcome Value)) : World (list (Outcome Value)) :=
  mkWorld {[ 1%positive := {[ "raw" := VBool true ]} ]} [] script.

(** A store holding legacy [describeTable] options. *)
Definition legacy (script : list (Outcome Value)) : World (list (Outcome Value)) :=
  mkWorld {[ 1%positive := {[ "schema" := VStr "shop"; "schemaDelimiter" := VStr "_" ]} ]}
          [] script.

(** A callback that throws, and one that resolves with its connection. *)
Definition boom : WithoutForeignKeyChecksCallback (list (Outcome Value)) Value :=
  λ _, throw (Error "boom").

Definition echo : WithoutForeignKeyChecksCallback (list (Outcome Value)) Value :=
  λ connection, mret connection.

Definition noSuchTable : JsError :=
  mkError ClsBaseError "Table 'shop.users' doesn't exist" (Some "ER_NO_SUCH_TABLE").

Definition notFound : JsError :=
  Error "No description found for table users in schema public. Check the table name and schema; remember, they _are_ case sensitive.".

(** An error that carries the code of a missing table without being a
    [BaseError]. *)
Definition foreign : JsError := mkError ClsError "no such table" (Some "ER_NO_SUCH_TABLE").

(** A world of the flag-keeping backend: the options [{ connection: 7 }] are
    stored and the checks of connection [7] are off, as inside a scope. *)
Definition flaggedWorld : World (gmap nat bool) :=
  mkWorld {[ 1%positive := {[ "connection" := VConn 7 ]} ]} [] {[ 7%nat := false ]}.

(** A callback on the flag-keeping backend that resolves with its
    connection. *)
Definition answer : WithoutForeignKeyChecksCallback (gmap nat bool) Value :=
  λ connection, mret connection.

(** A callback that creates an object of its own: it describes a table on
    the connection it is given. *)
Definition describing {B : Type} (sequelize : Sequelize B) :
    WithoutForeignKeyChecksCallback B Value :=
  λ connection,
    describeTable generator sequelize (VStr "users") (VObj {[ "connection" := connection ]}).

(** A callback that opens a scope of its own on the connection it is
    given. *)
Definition nested {B : Type} (sequelize : Sequelize B)
    (inner : WithoutForeignKeyChecksCallback B Value) :
    WithoutForeignKeyChecksCallback B Value :=
  λ connection,
    withoutForeignKeyChecks generator sequelize
      (inl (VObj {[ "connection" := connection ]})) (Some inner).
End Examples.

(** ** Running the primitives *)

Section Properties.
Context {B : Type}.
Variable queryGenerator : AbstractQueryGenerator.
Variable sequelize : Sequelize B.

Local Abbreviation sqlOff := (getToggleForeignKeyChecksQuery queryGenerator false).
Local Abbreviation sqlOn := (getToggleForeignKeyChecksQuery queryGenerator true).
Local Abbreviation toggle := (unsafeToggleForeignKeyChecks queryGenerator sequelize).

Lemma bind_run {A C} (m : M B A) (k : A → M B C) (w : World B) :
  (m ≫= k) w = match m w with
               | (Ok a, w') => k a w'
               | (Throw e, w') => (Throw e, w')
               end.
Proof. reflexivity. Qed.

Lemma try_finally_run {A} (body : M B A) (fin : M B unit) (w : World B) :
  try_finally body fin w =
    match fin (body w).2 with
    | (Ok _, w2) => ((body w).1, w2)
    | (Throw e, w2) => (Throw e, w2)
    end.
Proof. unfold try_finally. by destruct (body w). Qed.

Lemma try_catch_run {A} (body : M B A) (handler : JsError → M B A) (w : World B) :
  try_catch body handler w =
    match (body w).1 with
    | Ok a => (Ok a, (body w).2)
    | Throw e => handler e (body w).2
    end.
Proof. unfold try_catch. by destruct (body w) as [[a|e] w1]. Qed.

Lemma queryRaw_run (sql : string) (options : Value) (w : World B) :
  queryRaw sequelize sql options w =
    ((execute sequelize sql (snapshot (heap w) options) (backend w)).1,
     mkWorld (heap w) (trace w ++ [EvQuery sql (snapshot (heap w) options)])
             (execute sequelize sql (snapshot (heap w) options) (backend w)).2).
Proof. unfold queryRaw. by destruct (execute _ _ _ _). Qed.

(** One toggle is one statement: the world it leaves has the same store and
    exactly one more event. *)
Lemma toggle_run (enable : bool) (options : Value) (w : World B) :
  ∃ r b',
    toggle enable options w =
      (r, mkWorld (heap w)
            (trace w ++ [EvQuery (getToggleForeignKeyChecksQuery queryGenerator enable)
                                 (snapshot (heap w) options)])
            b').
Proof.
  unfold unsafeToggleForeignKeyChecks. rewrite bind_run, queryRaw_run.
  destruct (execute _ _ _ _) as [[v|e] b']; simpl; eauto.
Qed.

Lemma toggle_heap (enable : bool) (options : Value) (w : World B) :
  heap (toggle enable options w).2 = heap w.
Proof. destruct (toggle_run enable options w) as (r & b' & ->). reflexivity. Qed.

(** The private method, one step at a time: the disabling statement, the
    callback when that statement succeeded, then the enabling statement. *)
Lemma withoutForeignKeyChecks__run {T} (l : loc)
    (cb : option (WithoutForeignKeyChecksCallback B T)) (w : World B) :
  withoutForeignKeyChecks_ queryGenerator sequelize (VRef l) cb w =
    let '(r0, w0) := toggle false (VRef l) w in
    let '(r1, w1) :=
      match r0 with
      | Ok _ => call cb (lookupProp (default ∅ (heap w0 !! l)) "connection") w0
      | Throw e => (Throw e, w0)
      end in
    let '(r2, w2) := toggle true (VRef l) w1 in
    (match r2 with Ok _ => r1 | Throw e => Throw e end, w2).
Proof.
  unfold withoutForeignKeyChecks_, try_finally. rewrite bind_run.
  destruct (toggle false (VRef l) w) as [[[]|e0] w0]; simpl.
  - rewrite bind_run. simpl.
    destruct (call cb _ w0) as [r1 w1].
    destruct (toggle true (VRef l) w1) as [[[]|e2] w2]; reflexivity.
  - destruct (toggle true (VRef l) w0) as [[[]|e2] w2]; reflexivity.
Qed.

(** ** C1: the re-enabling toggle of a scope *)

(** C1.  Once the scope is entered and the callback has settled, with a
    value or with an error, [unsafeToggleForeignKeyChecks(true, options)]
    runs: it adds exactly one event, the enabling statement, to the trace
    the callback left, and only the world it leaves is handed back to the
    caller together with the outcome. *)
Theorem reenable_runs_once_after_callback {T} (l : loc)
    (cb : WithoutForeignKeyChecksCallback B T) (w w0 w1 : World B) (r1 : Outcome T) :
  toggle false (VRef l) w = (Ok tt, w0) →
  cb (lookupProp (default ∅ (heap w0 !! l)) "connection") w0 = (r1, w1) →
  ∃ r2 w2,
    toggle true (VRef l) w1 = (r2, w2)
    ∧ trace w2 = (trace w1 ++ [EvQuery sqlOn (Some (default ∅ (heap w1 !! l)))])%list
    ∧ withoutForeignKeyChecks_ queryGenerator sequelize (VRef l) (Some cb) w =
        (match r2 with Ok _ => r1 | Throw e => Throw e end, w2).
Proof.
  intros Hoff Hcb.
  destruct (toggle_run true (VRef l) w1) as (r2 & b2 & Hon).
  eexists r2, _. split; [exact Hon|]. split; [reflexivity|].
  rewrite withoutForeignKeyChecks__run, Hoff. simpl. rewrite Hcb, Hon. reflexivity.
Qed.

(** ** C4: which error surfaces when the restoration fails *)

(** C4, as the code has it.  The outcome of the scope is decided by the
    re-enabling step: when that step fails its error is the one surfaced,
    whatever the callback did, and the callback's own outcome, value or
    error, is surfaced exactly when the re-enabling step succeeds. *)
Theorem restoration_failure_is_surfaced {T} (l : loc)
    (cb : WithoutForeignKeyChecksCallback B T) (w w0 w1 w2 : World B)
    (r1 : Outcome T) (r2 : Outcome unit) :
  toggle false (VRef l) w = (Ok tt, w0) →
  cb (lookupProp (default ∅ (heap w0 !! l)) "connection") w0 = (r1, w1) →
  toggle true (VRef l) w1 = (r2, w2) →
  let surfaced := (withoutForeignKeyChecks_ queryGenerator sequelize (VRef l) (Some cb) w).1 in
  (∀ e2, r2 = Throw e2 → surfaced = Throw e2)
  ∧ (r2 = Ok tt → surfaced = r1).
Proof.
  intros Hoff Hcb Hon surfaced. subst surfaced.
  rewrite withoutForeignKeyChecks__run, Hoff. simpl. rewrite Hcb, Hon. simpl.
  split; intros; subst; reflexivity.
Qed.

(** ** The public method, one step at a time *)

Lemma setTransactionFromCls_run (l : loc) (o : gmap string Value) (w : World B) :
  heap w !! l = Some o →
  setTransactionFromCls sequelize l w =
    (Ok tt, mkWorld (<[l := injected sequelize o]> (heap w))
                    (trace w ++ [EvClsInjection]) (backend w)).
Proof.
  intros Hl. unfold setTransactionFromCls, injected.
  rewrite bind_run. simpl. rewrite bind_run. simpl. rewrite Hl. simpl.
  destruct (lookupProp o "transaction"), (disableClsTransactions sequelize),
    (getCurrentClsTransaction sequelize);
    simpl; unfold setProp; simpl; rewrite ?Hl; simpl;
    rewrite ?(insert_id (heap w) l o Hl); reflexivity.
Qed.

(** The prelude of [withoutForeignKeyChecks]: the internal options object is
    a fresh one, the injection runs on it, and the connection is resolved on
    what the injection left. *)
Lemma withoutForeignKeyChecks_run {T}
    (optionsOrCallback : Value + WithoutForeignKeyChecksCallback B T)
    (maybeCallback : option (WithoutForeignKeyChecksCallback B T)) (w : World B) :
  let cb := callbackOf optionsOrCallback maybeCallback in
  let l := fresh (dom (heap w)) in
  let o := injected sequelize (optionsCopy (heap w) optionsOrCallback) in
  let wi := mkWorld (<[l := o]> (heap w)) (trace w ++ [EvClsInjection]) (backend w) in
  withoutForeignKeyChecks queryGenerator sequelize optionsOrCallback maybeCallback w =
    if truthy (lookupProp o "connection")
    then withoutForeignKeyChecks_ queryGenerator sequelize (VRef l) cb wi
    else withConnection sequelize (λ connection,
           o ← load l;
           scoped ← alloc (<["connection" := VConn connection]> o);
           withoutForeignKeyChecks_ queryGenerator sequelize (VRef scoped) cb) wi.
Proof.
  intros cb l o wi. unfold withoutForeignKeyChecks.
  set (o0 := optionsCopy (heap w) optionsOrCallback).
  assert (Hpre :
    (match optionsOrCallback with
     | inr f => options ← alloc ∅; mret (options, Some f)
     | inl v => o ← spread v; options ← alloc o; mret (options, maybeCallback)
     end : M B _) w
    = (Ok (l, cb), mkWorld (<[l := o0]> (heap w)) (trace w) (backend w))).
  { subst cb l o0. destruct optionsOrCallback; reflexivity. }
  rewrite bind_run, Hpre. simpl.
  rewrite bind_run.
  rewrite (setTransactionFromCls_run l o0); [|apply lookup_insert_eq].
  simpl. rewrite insert_insert_eq. fold o. fold wi.
  rewrite bind_run. simpl. rewrite lookup_insert_eq. simpl.
  by destruct (truthy _).
Qed.

Lemma withConnection_leased {T} (k : Connection → M B T) (w : World B)
    (c : Connection) (b' : B) :
  lease sequelize (backend w) = (Ok c, b') →
  withConnection sequelize k w =
    let rw := k c (mkWorld (heap w) (trace w ++ [EvLease c]) b') in
    (rw.1, mkWorld (heap rw.2) (trace rw.2 ++ [EvRelease c])
                   (release sequelize c (backend rw.2))).
Proof.
  intros Hl. unfold withConnection, try_finally. rewrite Hl.
  destruct (k c _) as [r w1]. reflexivity.
Qed.

Lemma withConnection_failed {T} (k : Connection → M B T) (w : World B)
    (e : JsError) (b' : B) :
  lease sequelize (backend w) = (Throw e, b') →
  withConnection sequelize k w =
    (Throw e, mkWorld (heap w) (trace w ++ [EvLeaseFailed e]) b').
Proof. intros Hl. unfold withConnection. by rewrite Hl. Qed.

(** A scope on the option object stored at [l]: the disabling statement, the
    body, the enabling statement.  The two statements are the only events the
    scope adds around those of the body. *)
Lemma scope_run {T} (l : loc) (o : gmap string Value)
    (cb : option (WithoutForeignKeyChecksCallback B T)) (w : World B) :
  heap w !! l = Some o →
  let x0 := execute sequelize sqlOff (Some o) (backend w) in
  let r0 := match x0.1 with Ok _ => Ok tt | Throw e => Throw e end in
  let w0 := mkWorld (heap w) (trace w ++ [EvQuery sqlOff (Some o)]) x0.2 in
  let rw1 := scopeBody cb (lookupProp o "connection") r0 w0 in
  let o1 := default ∅ (heap rw1.2 !! l) in
  let x2 := execute sequelize sqlOn (Some o1) (backend rw1.2) in
  withoutForeignKeyChecks_ queryGenerator sequelize (VRef l) cb w =
    (match x2.1 with Ok _ => rw1.1 | Throw e => Throw e end,
     mkWorld (heap rw1.2) (trace rw1.2 ++ [EvQuery sqlOn (Some o1)]) x2.2).
Proof.
  intros Hl x0 r0 w0 rw1 o1 x2.
  rewrite withoutForeignKeyChecks__run.
  assert (Hoff : toggle false (VRef l) w = (r0, w0)).
  { unfold unsafeToggleForeignKeyChecks. rewrite bind_run, queryRaw_run. simpl.
    rewrite Hl. simpl. fold x0. subst r0 w0. by destruct (x0.1). }
  rewrite Hoff.
  assert (Hbody :
    match r0 with
    | Ok _ => call cb (lookupProp (default ∅ (heap w0 !! l)) "connection") w0
    | Throw e => (Throw e, w0)
    end = rw1).
  { subst rw1. unfold scopeBody. simpl. rewrite Hl. simpl. by destruct r0. }
  rewrite Hbody. destruct rw1 as [r1 w1] eqn:E1. simpl in *.
  unfold unsafeToggleForeignKeyChecks. rewrite bind_run, queryRaw_run. simpl.
  fold o1. fold x2. by destruct (x2.1).
Qed.
Lemma call_keeps_body {T} (cb : option (WithoutForeignKeyChecksCallback B T)) (l : loc)
    (v : Value) (r0 : Outcome unit) (w0 : World B) :
  callback_keeps cb l →
  is_Some (heap w0 !! l) →
  heap (scopeBody cb v r0 w0).2 !! l = heap w0 !! l.
Proof. intros Hk Hl. destruct r0; simpl; [by apply Hk | reflexivity]. Qed.

(** A scope whose callback leaves the option object of the scope alone: both
    statements are issued with the same options. *)
Lemma scope_run_kept {T} (l : loc) (o : gmap string Value)
    (cb : option (WithoutForeignKeyChecksCallback B T)) (w : World B) :
  heap w !! l = Some o →
  callback_keeps cb l →
  ∃ r0 w0 r1 w1 r2 w2,
    toggle false (VRef l) w = (r0, w0)
    ∧ trace w0 = (trace w ++ [EvQuery sqlOff (Some o)])%list
    ∧ heap w0 = heap w
    ∧ backend w0 = (execute sequelize sqlOff (Some o) (backend w)).2
    ∧ scopeBody cb (lookupProp o "connection") r0 w0 = (r1, w1)
    ∧ toggle true (VRef l) w1 = (r2, w2)
    ∧ trace w2 = (trace w1 ++ [EvQuery sqlOn (Some o)])%list
    ∧ heap w2 = heap w1
    ∧ withoutForeignKeyChecks_ queryGenerator sequelize (VRef l) cb w =
        (match r2 with Ok _ => r1 | Throw e => Throw e end, w2).
Proof.
  intros Hl Hk.
  pose proof (scope_run l o cb w Hl) as Hrun. cbv zeta in Hrun.
  set (x0 := execute sequelize sqlOff (Some o) (backend w)) in *.
  set (r0 := match x0.1 with Ok _ => Ok tt | Throw e => Throw e end) in *.
  set (w0 := mkWorld (heap w) (trace w ++ [EvQuery sqlOff (Some o)]) x0.2) in *.
  assert (Hkept : heap (scopeBody cb (lookupProp o "connection") r0 w0).2 !! l = Some o).
  { rewrite call_keeps_body; [exact Hl | done | by exists o]. }
  destruct (scopeBody cb (lookupProp o "connection") r0 w0) as [r1 w1] eqn:Hbody.
  simpl in Hrun, Hkept. rewrite Hkept in Hrun. simpl in Hrun.
  set (x2 := execute sequelize sqlOn (Some o) (backend w1)) in *.
  exists r0, w0, r1, w1, (match x2.1 with Ok _ => Ok tt | Throw e => Throw e end),
    (mkWorld (heap w1) (trace w1 ++ [EvQuery sqlOn (Some o)]) x2.2).
  repeat split; try reflexivity; try exact Hbody.
  - unfold unsafeToggleForeignKeyChecks. rewrite bind_run, queryRaw_run. simpl.
    rewrite Hl. simpl. fold x0. subst r0 w0. by destruct (x0.1).
  - unfold unsafeToggleForeignKeyChecks. rewrite bind_run, queryRaw_run. simpl.
    rewrite Hkept. simpl. fold x2. by destruct (x2.1).
  - rewrite Hrun. by destruct (x2.1).
Qed.

Lemma scope_keeps {T} (l lc : loc)
    (cb : option (WithoutForeignKeyChecksCallback B T)) (w : World B) :
  callback_keeps cb lc →
  is_Some (heap w !! lc) →
  heap (withoutForeignKeyChecks_ queryGenerator sequelize (VRef l) cb w).2 !! lc
    = heap w !! lc.
Proof.
  intros Hk Hlc. rewrite withoutForeignKeyChecks__run.
  pose proof (toggle_heap false (VRef l) w) as H0.
  destruct (toggle false (VRef l) w) as [r0 w0]. simpl in H0.
  assert (H1 : heap (match r0 with
                     | Ok _ => call cb (lookupProp (default ∅ (heap w0 !! l)) "connection") w0
                     | Throw e => (Throw e, w0)
                     end).2 !! lc = heap w0 !! lc).
  { destruct r0; simpl; [apply Hk; by rewrite H0 | reflexivity]. }
  destruct (match r0 with Ok _ => _ | Throw e => _ end) as [r1 w1]. simpl in H1.
  pose proof (toggle_heap true (VRef l) w1) as H2.
  destruct (toggle true (VRef l) w1) as [r2 w2]. simpl in *.
  by rewrite H2, H1, H0.
Qed.

(** What the method does inside a leased connection: the scoped options are
    a second fresh object, the internal copy extended with the connection. *)
Lemma leased_scope_run {T} (l : loc) (o : gmap string Value)
    (cb : option (WithoutForeignKeyChecksCallback B T)) (c : Connection) (w : World B) :
  heap w !! l = Some o →
  (o ← load l;
   scoped ← alloc (<["connection" := VConn c]> o);
   withoutForeignKeyChecks_ queryGenerator sequelize (VRef scoped) cb) w =
  withoutForeignKeyChecks_ queryGenerator sequelize (VRef (fresh (dom (heap w)))) cb
    (mkWorld (<[fresh (dom (heap w)) := <["connection" := VConn c]> o]> (heap w))
             (trace w) (backend w)).
Proof. intros Hl. rewrite bind_run. simpl. rewrite Hl. reflexivity. Qed.

(** The public method writes to no object that is stored when it is called,
    provided its callback writes to none: the objects it creates are fresh
    ones. *)
Lemma withoutForeignKeyChecks_keeps {T} (lc : loc)
    (optionsOrCallback : Value + WithoutForeignKeyChecksCallback B T)
    (maybeCallback : option (WithoutForeignKeyChecksCallback B T)) (w : World B) :
  callback_keeps (callbackOf optionsOrCallback maybeCallback) lc →
  is_Some (heap w !! lc) →
  heap (withoutForeignKeyChecks queryGenerator sequelize optionsOrCallback maybeCallback w).2 !! lc
    = heap w !! lc.
Proof.
  intros Hk Hlc.
  rewrite (withoutForeignKeyChecks_run optionsOrCallback maybeCallback w). cbv zeta.
  set (cb := callbackOf optionsOrCallback maybeCallback) in *.
  set (l := fresh (dom (heap w))).
  set (o := injected sequelize (optionsCopy (heap w) optionsOrCallback)).
  set (h := <[l := o]> (heap w)).
  assert (Hh : h !! lc = heap w !! lc).
  { apply lookup_insert_ne. intros E. apply (is_fresh (dom (heap w))). fold l. rewrite E.
    by apply elem_of_dom. }
  destruct (truthy (lookupProp o "connection")).
  - rewrite scope_keeps; [exact Hh | done | simpl; by rewrite Hh].
  - destruct (lease sequelize (backend w)) as [[c|e] b'] eqn:Hlease.
    + rewrite (withConnection_leased _ (mkWorld h (trace w ++ [EvClsInjection]) (backend w))
                 c b' Hlease).
      cbv zeta. simpl.
      rewrite (leased_scope_run l o cb c) by apply lookup_insert_eq.
      assert (Hscoped : ∀ o' : gmap string Value,
                <[fresh (dom h) := o']> h !! lc = heap w !! lc).
      { intros o'. rewrite lookup_insert_ne; [exact Hh|].
        intros E. apply (is_fresh (dom h)). rewrite E. apply elem_of_dom. by rewrite Hh. }
      rewrite scope_keeps; simpl; [apply Hscoped | done | by rewrite Hscoped].
    + rewrite (withConnection_failed _ (mkWorld h (trace w ++ [EvClsInjection]) (backend w))
                 e b' Hlease).
      exact Hh.
Qed.

(** ** C3: which connection a scope runs on *)

(** C3.  When the options carry a connection after the injection, the scope
    runs on the internal copy as it is: the disabling statement, the callback
    and the enabling statement all get that connection and the method adds
    no lease and no release.  Otherwise one connection is leased, the scoped
    options carry it for both statements, the callback receives it, and it is
    released once, after the enabling statement, whatever the statements and
    the callback did; a lease that fails ends the call with its error.  The
    callback is any computation that leaves the options object of the scope
    as it is once that object exists; the method hands it the connection
    only, and the callback may create objects of its own. *)
Theorem withoutForeignKeyChecks_connection {T}
    (optionsOrCallback : Value + WithoutForeignKeyChecksCallback B T)
    (maybeCallback : option (WithoutForeignKeyChecksCallback B T)) (w : World B) :
  let cb := callbackOf optionsOrCallback maybeCallback in
  let l := fresh (dom (heap w)) in
  let o := injected sequelize (optionsCopy (heap w) optionsOrCallback) in
  let h := <[l := o]> (heap w) in
  let run := withoutForeignKeyChecks queryGenerator sequelize optionsOrCallback maybeCallback w in
  (truthy (lookupProp o "connection") = true →
   callback_keeps cb l →
   ∃ r0 w0 r1 w1 r2 w2,
     toggle false (VRef l) (mkWorld h (trace w ++ [EvClsInjection]) (backend w)) = (r0, w0)
     ∧ trace w0 = (trace w ++ [EvClsInjection; EvQuery sqlOff (Some o)])%list
     ∧ scopeBody cb (lookupProp o "connection") r0 w0 = (r1, w1)
     ∧ toggle true (VRef l) w1 = (r2, w2)
     ∧ trace w2 = (trace w1 ++ [EvQuery sqlOn (Some o)])%list
     ∧ run = (match r2 with Ok _ => r1 | Throw e => Throw e end, w2))
  ∧ (truthy (lookupProp o "connection") = false →
     ∀ (c : Connection) (b' : B),
       lease sequelize (backend w) = (Ok c, b') →
       let l' := fresh (dom h) in
       let oc := <["connection" := VConn c]> o in
       callback_keeps cb l' →
       ∃ r0 w0 r1 w1 r2 w2,
         toggle false (VRef l')
           (mkWorld (<[l' := oc]> h) (trace w ++ [EvClsInjection; EvLease c]) b') = (r0, w0)
         ∧ trace w0 = (trace w ++ [EvClsInjection; EvLease c; EvQuery sqlOff (Some oc)])%list
         ∧ scopeBody cb (VConn c) r0 w0 = (r1, w1)
         ∧ toggle true (VRef l') w1 = (r2, w2)
         ∧ trace w2 = (trace w1 ++ [EvQuery sqlOn (Some oc)])%list
         ∧ run = (match r2 with Ok _ => r1 | Throw e => Throw e end,
                  mkWorld (heap w2) (trace w2 ++ [EvRelease c])
                          (release sequelize c (backend w2))))
  ∧ (truthy (lookupProp o "connection") = false →
     ∀ (e : JsError) (b' : B),
       lease sequelize (backend w) = (Throw e, b') →
       run = (Throw e, mkWorld h (trace w ++ [EvClsInjection; EvLeaseFailed e]) b')).
Proof.
  intros cb l o h run.
  pose proof (withoutForeignKeyChecks_run optionsOrCallback maybeCallback w) as Hrun.
  cbv zeta in Hrun. fold cb l o h run in Hrun.
  split; [|split].
  - intros Hc Hk. rewrite Hc in Hrun.
    destruct (scope_run_kept l o cb
                (mkWorld h (trace w ++ [EvClsInjection]) (backend w)))
      as (r0 & w0 & r1 & w1 & r2 & w2 & H0 & T0 & _ & _ & Hb & H2 & T2 & _ & Hs);
      [apply lookup_insert_eq | done |].
    exists r0, w0, r1, w1, r2, w2. simpl in T0. rewrite <- app_assoc in T0.
    repeat split; try done. by rewrite Hrun.
  - intros Hc c b' Hlease l' oc Hk. rewrite Hc in Hrun.
    rewrite (withConnection_leased _ (mkWorld h (trace w ++ [EvClsInjection]) (backend w))
               c b' Hlease) in Hrun.
    cbv zeta in Hrun.
    rewrite (leased_scope_run l o cb c) in Hrun by apply lookup_insert_eq.
    simpl in Hrun. fold l' oc in Hrun.
    destruct (scope_run_kept l' oc cb
                (mkWorld (<[l' := oc]> h) ((trace w ++ [EvClsInjection]) ++ [EvLease c]) b'))
      as (r0 & w0 & r1 & w1 & r2 & w2 & H0 & T0 & _ & _ & Hb & H2 & T2 & _ & Hs);
      [apply lookup_insert_eq | done |].
    exists r0, w0, r1, w1, r2, w2. simpl in T0. rewrite <- !app_assoc in *. simpl in *.
    assert (Hconn : lookupProp oc "connection" = VConn c).
    { unfold lookupProp, oc. by rewrite lookup_insert_eq. }
    rewrite Hconn in Hb.
    repeat split; try done. rewrite Hrun, Hs. reflexivity.
  - intros Hc e b' Hlease. rewrite Hc in Hrun.
    rewrite (withConnection_failed _ (mkWorld h (trace w ++ [EvClsInjection]) (backend w))
               e b' Hlease) in Hrun.
    simpl in Hrun.
    rewrite <- app_assoc in Hrun. exact Hrun.
Qed.

(** ** C8: the ambient-transaction injection *)


Lemma injected_connection (o : gmap string Value) :
  lookupProp (injected sequelize o) "connection" = lookupProp o "connection".
Proof.
  unfold injected.
  destruct (lookupProp o "transaction"), (disableClsTransactions sequelize),
    (getCurrentClsTransaction sequelize); try reflexivity.
  unfold lookupProp. by rewrite lookup_insert_ne.
Qed.



(** ** C10: the caller's options object *)

(** C10.  The method continues on a copy of the caller's options stored at a
    fresh location: the injection is made on that copy, the connection of a
    lease is added to a further fresh object, and the object the caller
    passed holds the same properties after the call as before it, provided
    the callback does not write to it either; the callback may create
    objects of its own. *)
Theorem caller_options_not_mutated {T} (lc : loc) (oc : gmap string Value)
    (maybeCallback : option (WithoutForeignKeyChecksCallback B T)) (w : World B) :
  heap w !! lc = Some oc →
  callback_keeps maybeCallback lc →
  let l := fresh (dom (heap w)) in
  let wi := mkWorld (<[l := injected sequelize oc]> (heap w))
                    (trace w ++ [EvClsInjection]) (backend w) in
  let run := withoutForeignKeyChecks queryGenerator sequelize (inl (VRef lc)) maybeCallback w in
  l ≠ lc
  ∧ heap wi !! l = Some (injected sequelize oc)
  ∧ heap wi !! lc = Some oc
  ∧ run =
      (if truthy (lookupProp oc "connection")
       then withoutForeignKeyChecks_ queryGenerator sequelize (VRef l) maybeCallback
       else withConnection sequelize (λ connection,
              o ← load l;
              scoped ← alloc (<["connection" := VConn connection]> o);
              withoutForeignKeyChecks_ queryGenerator sequelize (VRef scoped) maybeCallback)) wi
  ∧ heap run.2 !! lc = Some oc.
Proof.
  intros Hlc Hk l wi run.
  assert (Hne : l ≠ lc).
  { intros E. apply (is_fresh (dom (heap w))). fold l. rewrite E.
    apply elem_of_dom. by rewrite Hlc. }
  assert (Hrun := withoutForeignKeyChecks_run (inl (VRef lc)) maybeCallback w).
  cbv zeta in Hrun. simpl in Hrun. rewrite Hlc in Hrun. simpl in Hrun.
  rewrite injected_connection in Hrun. fold l wi run in Hrun.
  assert (Hwi : heap wi !! lc = Some oc) by (simpl; by rewrite lookup_insert_ne).
  split; [done|]. split; [apply lookup_insert_eq|]. split; [done|].
  split; [rewrite Hrun; by destruct (truthy _)|].
  rewrite Hrun. destruct (truthy (lookupProp oc "connection")).
  - rewrite scope_keeps; [done | done | by rewrite Hwi].
  - destruct (lease sequelize (backend w)) as [[c|e] b'] eqn:Hlease.
    + rewrite (withConnection_leased _ wi c b' Hlease). cbv zeta. simpl.
      rewrite (leased_scope_run l (injected sequelize oc) maybeCallback c)
        by apply lookup_insert_eq.
      assert (Hscoped :
        ∀ o' : gmap string Value,
          <[fresh (dom (<[l := injected sequelize oc]> (heap w))) := o']>
            (<[l := injected sequelize oc]> (heap w)) !! lc = Some oc).
      { intros o'. rewrite lookup_insert_ne; [by rewrite lookup_insert_ne|].
        intros E. apply (is_fresh (dom (<[l := injected sequelize oc]> (heap w)))).
        rewrite E. apply elem_of_dom. by rewrite lookup_insert_ne, Hlc. }
      rewrite scope_keeps; simpl; [apply Hscoped | done | by rewrite Hscoped].
    + by rewrite (withConnection_failed _ wi e b' Hlease).
Qed.

(** ** [describeTable], one step at a time *)

Lemma getProp_object (v : Value) (k : string) (w : World B) :
  isNonNullObject v = true →
  getProp v k w = (Ok (propOf (heap w) v k), w).
Proof. destruct v; simpl; try discriminate; reflexivity. Qed.

Lemma resolveTable_run (tableName options : Value) (w : World B) :
  resolveTable queryGenerator tableName options w =
    (Ok (legacyTable queryGenerator (heap w) tableName options),
     mkWorld (heap w) (trace w ++ deprecationWarnings (heap w) options) (backend w)).
Proof.
  unfold resolveTable, legacyTable, deprecationWarnings.
  destruct w as [h tr b]. simpl.
  destruct (isString options) eqn:Hs.
  - destruct options; try discriminate. reflexivity.
  - destruct (isNonNullObject options) eqn:Ho.
    + repeat (rewrite ?bind_run, ?(getProp_object _ _ _ Ho); simpl).
      destruct (truthy (propOf h options "schema")); simpl;
        repeat (rewrite ?bind_run, ?(getProp_object _ _ _ Ho); simpl);
        destruct (truthy (propOf h options "schemaDelimiter")); simpl;
        repeat (rewrite ?bind_run; simpl);
        rewrite ?app_nil_r, <- ?app_assoc; reflexivity.
    + rewrite bind_run. simpl. by rewrite app_nil_r.
Qed.

(** The error raised to the caller is decided by what the execution of the
    DESCRIBE statement returned; the [catch] block sees the error thrown for
    an empty description as well and lets it through. *)
Lemma describeTable_run (tableName options : Value) (w : World B) :
  let table := legacyTable queryGenerator (heap w) tableName options in
  let sql := describeTableQuery queryGenerator table in
  let l := fresh (dom (heap w)) in
  let qo := describeOptions (heap w) options in
  let h' := <[l := qo]> (heap w) in
  let x := execute sequelize sql (Some qo) (backend w) in
  describeTable queryGenerator sequelize tableName options w =
    (match x.1 with
     | Ok data =>
         if isEmpty h' data then Throw (Error (noDescriptionMessage table)) else Ok data
     | Throw e =>
         if isNoSuchTable e then Throw (Error (noDescriptionMessage table)) else Throw e
     end,
     mkWorld h' (trace w ++ deprecationWarnings (heap w) options ++ [EvQuery sql (Some qo)]) x.2).
Proof.
  intros table sql l qo h' x. unfold describeTable.
  rewrite bind_run, resolveTable_run. simpl.
  repeat (rewrite bind_run; simpl).
  unfold try_catch. rewrite bind_run, queryRaw_run. simpl.
  rewrite lookup_insert_eq. simpl. rewrite <- app_assoc.
  subst x h' qo. unfold describeOptions. fold table sql l.
  destruct (execute sequelize sql _ (backend w)) as [[data|e] b']; simpl.
  - rewrite bind_run. simpl. destruct (isEmpty _ data); reflexivity.
  - destruct (isNoSuchTable e); reflexivity.
Qed.

(** ** C7: the deprecated parameter paths of [describeTable] *)

(** C7, as the code has it.  A call that uses a deprecated parameter path, a
    string as second argument or an options object whose [schema] or
    [schemaDelimiter] is truthy, emits deprecation warnings, and nothing but
    warnings, before it goes on: the table it describes has the supplied
    schema and the supplied delimiter, the DESCRIBE statement for that table
    is the next event, and a non-empty description returned by the backend is
    the result of the call. *)
Theorem describeTable_deprecated_path (tableName options : Value) (w : World B) :
  usesDeprecatedPath (heap w) options = true →
  let h := heap w in
  let table := legacyTable queryGenerator h tableName options in
  let warnings := deprecationWarnings h options in
  let qo := describeOptions h options in
  let run := describeTable queryGenerator sequelize tableName options w in
  warnings ≠ []
  ∧ forallb isDeprecation warnings = true
  ∧ (isString options = true → schema table = options)
  ∧ (isNonNullObject options = true → truthy (propOf h options "schema") = true →
     schema table = propOf h options "schema")
  ∧ (isNonNullObject options = true → truthy (propOf h options "schemaDelimiter") = true →
     delimiter table = propOf h options "schemaDelimiter")
  ∧ trace run.2 =
      (trace w ++ warnings ++ [EvQuery (describeTableQuery queryGenerator table) (Some qo)])%list
  ∧ (∀ data b',
       execute sequelize (describeTableQuery queryGenerator table) (Some qo) (backend w)
         = (Ok data, b') →
       isEmpty (heap run.2) data = false →
       run.1 = Ok data).
Proof.
  intros Hdep h table warnings qo run.
  assert (Hrun := describeTable_run tableName options w). cbv zeta in Hrun.
  fold h table qo run warnings in Hrun.
  unfold usesDeprecatedPath in Hdep. fold h in Hdep.
  split; [|split; [|split; [|split; [|split; [|split]]]]].
  - subst warnings. unfold deprecationWarnings. fold h.
    destruct (isString options); [done|]. simpl in Hdep.
    destruct (isNonNullObject options); [|done]. simpl in Hdep.
    destruct (truthy (propOf h options "schema")); [done|]. simpl in *.
    destruct (truthy (propOf h options "schemaDelimiter")); done.
  - subst warnings. unfold deprecationWarnings. fold h.
    destruct (isString options); [done|].
    destruct (isNonNullObject options); [|done].
    destruct (truthy (propOf h options "schema")),
      (truthy (propOf h options "schemaDelimiter")); done.
  - intros Hs. subst table. unfold legacyTable. by rewrite Hs.
  - intros Ho Hs. subst table. unfold legacyTable. fold h.
    destruct (isString options) eqn:E.
    { destruct options; discriminate. }
    rewrite Ho, Hs. by destruct (truthy (propOf h options "schemaDelimiter")).
  - intros Ho Hd. subst table. unfold legacyTable. fold h.
    destruct (isString options) eqn:E.
    { destruct options; discriminate. }
    rewrite Ho, Hd. reflexivity.
  - rewrite Hrun. reflexivity.
  - intros data b' Hx Hne. rewrite Hrun in Hne |- *. simpl in *.
    rewrite Hx. simpl. by rewrite Hne.
Qed.

(** ** [dropSchema] and [showAllSchemas], one step at a time *)

Lemma dropSchema_plain (schema sql : string) (options : Value) (w : World B) :
  dropSchemaQuery queryGenerator schema = inl sql →
  dropSchema queryGenerator sequelize schema options w =
    (queryRaw sequelize sql options ;; mret tt) w.
Proof. intros Hq. unfold dropSchema. by rewrite Hq. Qed.

Lemma dropSchema_pair (schema : string) (q : QueryWithBindParams) (options : Value)
    (w : World B) :
  dropSchemaQuery queryGenerator schema = inr q →
  let qo := <["bind" := bind q]> (ownProps (heap w) options) in
  dropSchema queryGenerator sequelize schema options w =
    (queryRaw sequelize (query q) (VRef (fresh (dom (heap w)))) ;; mret tt)
      (mkWorld (<[fresh (dom (heap w)) := qo]> (heap w)) (trace w) (backend w)).
Proof. intros Hq qo. unfold dropSchema. rewrite Hq. reflexivity. Qed.

Lemma dropSchema_trace_plain (schema sql : string) (options : Value) (w : World B) :
  dropSchemaQuery queryGenerator schema = inl sql →
  trace (dropSchema queryGenerator sequelize schema options w).2
    = (trace w ++ [EvQuery sql (snapshot (heap w) options)])%list
  ∧ heap (dropSchema queryGenerator sequelize schema options w).2 = heap w.
Proof.
  intros Hq. rewrite (dropSchema_plain _ _ _ _ Hq), bind_run, queryRaw_run. simpl.
  by destruct (execute _ _ _ _).1.
Qed.

Lemma dropSchema_trace_pair (schema : string) (q : QueryWithBindParams) (options : Value)
    (w : World B) :
  dropSchemaQuery queryGenerator schema = inr q →
  trace (dropSchema queryGenerator sequelize schema options w).2
    = (trace w ++ [EvQuery (query q) (Some (<["bind" := bind q]> (ownProps (heap w) options)))])%list.
Proof.
  intros Hq. rewrite (dropSchema_pair _ _ _ _ Hq), bind_run, queryRaw_run. simpl.
  rewrite lookup_insert_eq. simpl. by destruct (execute _ _ _ _).1.
Qed.

Lemma schemaNameOf_run (row : Value) (w : World B) :
  isNullish row = false →
  schemaNameOf row w =
    (Ok (if truthy (propOf (heap w) row "schema_name")
         then propOf (heap w) row "schema_name" else row), w).
Proof. destruct row; simpl; try discriminate; reflexivity. Qed.

Lemma flatMap_run (rows : list Value) (w : World B) :
  Forall (λ row, isNullish row = false) rows →
  flatMap schemaNameOf rows w = (Ok (flat_map (contribution (heap w)) rows), w).
Proof.
  induction 1 as [|row rows Hrow _ IH]; [reflexivity|].
  simpl. rewrite bind_run, (schemaNameOf_run _ _ Hrow). simpl.
  rewrite bind_run, IH. reflexivity.
Qed.

Lemma showAllSchemas_run (options : Value) (w : World B) :
  let sql := listSchemasQuery queryGenerator (snapshot (heap w) options) in
  let qo := listOptions (heap w) options in
  let l := fresh (dom (heap w)) in
  let x := execute sequelize sql (Some qo) (backend w) in
  let w' := mkWorld (<[l := qo]> (heap w)) (trace w ++ [EvQuery sql (Some qo)]) x.2 in
  showAllSchemas queryGenerator sequelize options w =
    match x.1 with
    | Ok (VArr rows) => flatMap schemaNameOf rows w'
    | Ok _ => (Throw (TypeError "schemaNames.flatMap is not a function"), w')
    | Throw e => (Throw e, w')
    end.
Proof.
  intros sql qo l x w'. unfold showAllSchemas.
  repeat (rewrite bind_run; simpl). rewrite queryRaw_run. simpl.
  rewrite lookup_insert_eq. simpl. subst w' x qo. unfold listOptions. fold sql l.
  destruct (execute sequelize sql _ (backend w)) as [[v|e] b']; simpl; [|reflexivity].
  destruct v; reflexivity.
Qed.

Lemma contribution_names (h : Store) (rows : list Value) (schemas : list string) :
  Forall2 names rows schemas →
  flat_map (contribution h) rows = map VStr schemas
  ∧ Forall (λ row, isNullish row = false) rows.
Proof.
  induction 1 as [|row s rows schemas Hn _ [IH1 IH2]]; [by split|].
  split.
  - simpl. rewrite IH1. f_equal.
    destruct Hn as [-> | (f & -> & Hf & Hs)]; [reflexivity|].
    unfold contribution. simpl. unfold lookupProp. rewrite Hf. simpl.
    by destruct s.
  - constructor; [|done]. by destruct Hn as [-> | (f & -> & _)].
Qed.

(** ** C6: the rows of [showAllSchemas] *)

(** C6, as the code has it.  When the listing returns rows none of which is
    [null] or [undefined], the result is the concatenation of what the rows
    contribute: the value of [schema_name] when that value is truthy, and the
    row itself otherwise, an array being spliced in element by element.  When
    every row names a schema, as a bare string or as a mapping whose
    [schema_name] is a non-empty string, the result is the flat sequence of
    those names. *)
Theorem showAllSchemas_flattens (options : Value) (w : World B)
    (rows : list Value) (b' : B) :
  let sql := listSchemasQuery queryGenerator (snapshot (heap w) options) in
  let qo := listOptions (heap w) options in
  let h' := <[fresh (dom (heap w)) := qo]> (heap w) in
  let result := (showAllSchemas queryGenerator sequelize options w).1 in
  execute sequelize sql (Some qo) (backend w) = (Ok (VArr rows), b') →
  (Forall (λ row, isNullish row = false) rows →
   result = Ok (flat_map (contribution h') rows))
  ∧ (∀ schemas : list string, Forall2 names rows schemas → result = Ok (map VStr schemas)).
Proof.
  intros sql qo h' result Hx. subst result.
  rewrite showAllSchemas_run. cbv zeta. fold sql qo. rewrite Hx. simpl.
  split.
  - intros Hrows. by rewrite flatMap_run.
  - intros schemas Hn. destruct (contribution_names h' rows schemas Hn) as [Hc Hrows].
    rewrite flatMap_run by done. simpl. fold qo h'. by rewrite Hc.
Qed.
End Properties.

(** ** C2: a table that does not exist *)

Section MissingTable.
Context {BA BB : Type}.
Variable queryGenerator : AbstractQueryGenerator.
Variable backendA : Sequelize BA.
Variable backendB : Sequelize BB.

(** C2, as the code has it.  For the same table reference and the same
    options, a backend that answers the DESCRIBE statement with an empty
    result and a backend that raises a [BaseError] whose cause has code
    [ER_NO_SUCH_TABLE] make [describeTable] fail with one and the same error:
    an [Error] carrying the "No description found" message for that table.
    The catch block tests the class of the error as well as the code of its
    cause. *)
Theorem describeTable_missing_table (tableName options : Value)
    (wA : World BA) (wB : World BB)
    (data : Value) (bA' : BA) (e : JsError) (bB' : BB) :
  heap wA = heap wB →
  let h := heap wA in
  let table := legacyTable queryGenerator h tableName options in
  let sql := describeTableQuery queryGenerator table in
  let qo := describeOptions h options in
  execute backendA sql (Some qo) (backend wA) = (Ok data, bA') →
  isEmpty (<[fresh (dom h) := qo]> h) data = true →
  execute backendB sql (Some qo) (backend wB) = (Throw e, bB') →
  instanceofBaseError e = true →
  causeCode e = Some "ER_NO_SUCH_TABLE" →
  (describeTable queryGenerator backendA tableName options wA).1
    = Throw (Error (noDescriptionMessage table))
  ∧ (describeTable queryGenerator backendB tableName options wB).1
    = Throw (Error (noDescriptionMessage table)).
Proof.
  intros Hh h table sql qo HA Hempty HB Hbase Hcode.
  rewrite !describeTable_run. cbv zeta. rewrite <- Hh.
  fold h table sql qo. rewrite HA, HB. simpl. rewrite Hempty.
  unfold isNoSuchTable. rewrite Hbase, Hcode. simpl.
  split; reflexivity.
Qed.
End MissingTable.

(** ** C5: the two forms of [dropSchemaQuery] *)

Section DropSchemaForms.
Context {B : Type}.
Variable plainGenerator : AbstractQueryGenerator.
Variable pairGenerator : AbstractQueryGenerator.
Variable sequelize : Sequelize B.

(** C5, as the code has it.  With a generator that returns plain SQL the
    statement is executed with the caller's options as they are; with a
    generator that returns a query and its bind parameters the query is
    executed with a copy of the caller's options in which [bind] is set to
    those parameters.  When the two generators give the same SQL text, the
    bind parameters of the pair are empty and the caller's options carry no
    bind parameters of their own, the two executed statements are
    equivalent. *)
Theorem dropSchema_both_forms (schema sql : string) (parameters options : Value)
    (w : World B) :
  dropSchemaQuery plainGenerator schema = inl sql →
  dropSchemaQuery pairGenerator schema = inr {| query := sql; bind := parameters |} →
  isOptionsArgument options = true →
  let plain := EvQuery sql (snapshot (heap w) options) in
  let pair := EvQuery sql (Some (<["bind" := parameters]> (ownProps (heap w) options))) in
  (trace (dropSchema plainGenerator sequelize schema options w).2 = (trace w ++ [plain])%list
   ∧ heap (dropSchema plainGenerator sequelize schema options w).2 = heap w)
  ∧ trace (dropSchema pairGenerator sequelize schema options w).2 = (trace w ++ [pair])%list
  ∧ (noParameters parameters = true →
     noParameters (bindParameters (snapshot (heap w) options)) = true →
     equivalentStatements plain pair).
Proof.
  intros Hplain Hpair Hopt plain pair.
  split; [exact (dropSchema_trace_plain _ _ _ _ _ _ Hplain)|].
  split; [exact (dropSchema_trace_pair _ _ _ _ _ _ Hpair)|].
  intros Hp Hown. subst plain pair. simpl.
  split; [reflexivity|]. split.
  - unfold otherOptions. simpl. rewrite delete_insert_eq.
    by destruct options.
  - right. split; [exact Hown|]. unfold lookupProp. by rewrite lookup_insert_eq.
Qed.
End DropSchemaForms.

(** ** C9: enabling foreign-key checks twice *)

Section ToggleTwice.
Context {B : Type}.
Variable queryGenerator : AbstractQueryGenerator.
Variable sequelize : Sequelize B.

(** Whether foreign-key checks are enabled on a connection, as the backend
    knows it. *)
Variable fkChecks : B → Connection → bool.

(** C9, as the code has it.  The method keeps no state and has no failure of
    its own: two successive calls of
    [unsafeToggleForeignKeyChecks(true, options)] on the same connection each
    send the enabling statement of the dialect with the caller's options, the
    second one to the backend as the first one left it, and each call fails
    exactly when the backend fails its statement, with the error of the
    backend.  On a backend that obeys the enabling statement both calls
    complete without error and the checks of the connection are on after the
    first call and after the second. *)
Theorem unsafeToggleForeignKeyChecks_enable_twice
    (l : loc) (o : gmap string Value) (c : Connection) (w : World B) :
  heap w !! l = Some o →
  lookupProp o "connection" = VConn c →
  let sql := getToggleForeignKeyChecksQuery queryGenerator true in
  let x1 := execute sequelize sql (Some o) (backend w) in
  let x2 := execute sequelize sql (Some o) x1.2 in
  let run1 := unsafeToggleForeignKeyChecks queryGenerator sequelize true (VRef l) w in
  let run2 := unsafeToggleForeignKeyChecks queryGenerator sequelize true (VRef l) run1.2 in
  (run1 = (discarding x1.1, mkWorld (heap w) (trace w ++ [EvQuery sql (Some o)]) x1.2)
   ∧ run2 = (discarding x2.1,
             mkWorld (heap w) (trace w ++ [EvQuery sql (Some o); EvQuery sql (Some o)]) x2.2))
  ∧ (obeysEnabling queryGenerator sequelize fkChecks →
     run1.1 = Ok tt
     ∧ run2.1 = Ok tt
     ∧ fkChecks (backend run1.2) c = true
     ∧ fkChecks (backend run2.2) c = true).
Proof.
  intros Hl Hc sql x1 x2 run1 run2.
  assert (H1 : run1 = (discarding x1.1,
                       mkWorld (heap w) (trace w ++ [EvQuery sql (Some o)]) x1.2)).
  { subst run1. unfold unsafeToggleForeignKeyChecks.
    rewrite bind_run, queryRaw_run. simpl. rewrite Hl. simpl. fold sql x1.
    by destruct (x1.1). }
  assert (H2 : run2 = (discarding x2.1,
                       mkWorld (heap w)
                         (trace w ++ [EvQuery sql (Some o); EvQuery sql (Some o)]) x2.2)).
  { subst run2. rewrite H1. unfold unsafeToggleForeignKeyChecks.
    rewrite bind_run, queryRaw_run. simpl. rewrite Hl. simpl. fold sql x2.
    rewrite <- app_assoc. by destruct (x2.1). }
  split; [by split|].
  intros Hobeys. rewrite H1, H2. simpl.
  destruct (Hobeys o c (backend w) Hc) as (v1 & b1 & E1 & F1).
  destruct (Hobeys o c x1.2 Hc) as (v2 & b2 & E2 & F2).
  change (x1 = (Ok v1, b1)) in E1. change (x2 = (Ok v2, b2)) in E2.
  rewrite E2, E1. simpl. by rewrite F1, F2.
Qed.
End ToggleTwice.

(** ** Further properties of the schema operations *)

Section Operations.
Context {B : Type}.
Variable queryGenerator : AbstractQueryGenerator.
Variable sequelize : Sequelize B.

Lemma storeKept_refl (w w' : World B) : heap w' = heap w → storeKept w w'.
Proof. intros E l _. by rewrite E. Qed.

Lemma storeKept_fresh (w w' : World B) (o : gmap string Value) :
  heap w' = <[fresh (dom (heap w)) := o]> (heap w) → storeKept w w'.
Proof.
  intros E l Hl. rewrite E. apply lookup_insert_ne. intros <-.
  apply (is_fresh (dom (heap w))). by apply elem_of_dom.
Qed.

Lemma flatMap_heap (rows : list Value) (w : World B) :
  (flatMap schemaNameOf rows w).2 = w.
Proof.
  induction rows as [|row rows IH]; [reflexivity|].
  simpl. rewrite bind_run.
  destruct row; simpl; try reflexivity;
    rewrite bind_run; destruct (flatMap schemaNameOf rows w) as [[ys|e] w'];
    simpl in *; by subst.
Qed.

(** [createSchema] is one statement: the SQL the generator makes of the
    schema name and of the caller's options, executed with those options as
    they are; its value is dropped and its error, if any, is the error of the
    call. *)
Theorem createSchema_one_statement (schema : string) (options : Value) (w : World B) :
  let seen := snapshot (heap w) options in
  let sql := createSchemaQuery queryGenerator schema seen in
  let x := execute sequelize sql seen (backend w) in
  createSchema queryGenerator sequelize schema options w =
    (discarding x.1, mkWorld (heap w) (trace w ++ [EvQuery sql seen]) x.2).
Proof.
  intros seen sql x. unfold createSchema.
  rewrite bind_run. simpl. rewrite bind_run, queryRaw_run. fold seen sql x.
  by destruct (x.1).
Qed.

(** No schema operation writes to an object that is stored when it is
    called: the options of the caller, and every other object, hold the same
    properties afterwards, whether the operation succeeded or failed. *)
Theorem operations_keep_store (name : string) (tableName options : Value)
    (enable : bool) (w : World B) :
  storeKept w (createSchema queryGenerator sequelize name options w).2
  ∧ storeKept w (dropSchema queryGenerator sequelize name options w).2
  ∧ storeKept w (showAllSchemas queryGenerator sequelize options w).2
  ∧ storeKept w (describeTable queryGenerator sequelize tableName options w).2
  ∧ storeKept w (unsafeToggleForeignKeyChecks queryGenerator sequelize enable options w).2.
Proof.
  split; [|split; [|split; [|split]]].
  - apply storeKept_refl. by rewrite createSchema_one_statement.
  - destruct (dropSchemaQuery queryGenerator name) as [sql|q] eqn:Hq.
    + apply storeKept_refl. exact (proj2 (dropSchema_trace_plain _ _ _ _ _ _ Hq)).
    + apply (storeKept_fresh _ _ (<["bind" := bind q]> (ownProps (heap w) options))).
      rewrite (dropSchema_pair _ _ _ _ _ _ Hq), bind_run, queryRaw_run. simpl.
      by destruct (execute _ _ _ _).1.
  - apply (storeKept_fresh _ _ (listOptions (heap w) options)).
    rewrite showAllSchemas_run. cbv zeta.
    destruct (execute _ _ _ _).1 as [[]|]; try reflexivity.
    by rewrite flatMap_heap.
  - apply (storeKept_fresh _ _ (describeOptions (heap w) options)).
    by rewrite describeTable_run.
  - apply storeKept_refl. apply toggle_heap.
Qed.

(** [createSchema], [dropSchema] and [unsafeToggleForeignKeyChecks] are one
    statement each and have no failure of their own: the call fails exactly
    when the execution of its statement fails, with the same error, and
    returns nothing otherwise. *)
Theorem statements_pass_errors (name : string) (options : Value) (enable : bool)
    (w : World B) :
  let passes (run : Outcome unit * World B) :=
    ∃ (sql : string) (o : option (gmap string Value)),
      trace run.2 = (trace w ++ [EvQuery sql o])%list
      ∧ run.1 = discarding (execute sequelize sql o (backend w)).1
      ∧ backend run.2 = (execute sequelize sql o (backend w)).2 in
  passes (createSchema queryGenerator sequelize name options w)
  ∧ passes (dropSchema queryGenerator sequelize name options w)
  ∧ passes (unsafeToggleForeignKeyChecks queryGenerator sequelize enable options w).
Proof.
  intros passes. subst passes. cbv beta. split; [|split].
  - eexists _, _. rewrite createSchema_one_statement. cbv zeta. simpl.
    split; [reflexivity|]. split; reflexivity.
  - destruct (dropSchemaQuery queryGenerator name) as [sql|q] eqn:Hq.
    + exists sql, (snapshot (heap w) options).
      rewrite (dropSchema_plain _ _ _ _ _ _ Hq), bind_run, queryRaw_run. simpl.
      by destruct (execute _ _ _ _).1.
    + exists (query q), (Some (<["bind" := bind q]> (ownProps (heap w) options))).
      rewrite (dropSchema_pair _ _ _ _ _ _ Hq), bind_run, queryRaw_run. simpl.
      rewrite lookup_insert_eq. simpl. by destruct (execute _ _ _ _).1.
  - exists (getToggleForeignKeyChecksQuery queryGenerator enable), (snapshot (heap w) options).
    unfold unsafeToggleForeignKeyChecks. rewrite bind_run, queryRaw_run. simpl.
    by destruct (execute _ _ _ _).1.
Qed.

(** ** Further properties of [describeTable] *)

(** An error of the execution that is not a [BaseError], or whose cause does
    not carry the code [ER_NO_SUCH_TABLE], reaches the caller as it is. *)
Theorem describeTable_rethrows (tableName options : Value) (w : World B)
    (e : JsError) (b' : B) :
  let table := legacyTable queryGenerator (heap w) tableName options in
  execute sequelize (describeTableQuery queryGenerator table)
    (Some (describeOptions (heap w) options)) (backend w) = (Throw e, b') →
  instanceofBaseError e = false ∨ causeCode e ≠ Some "ER_NO_SUCH_TABLE" →
  (describeTable queryGenerator sequelize tableName options w).1 = Throw e.
Proof.
  intros table Hx Hnot. rewrite describeTable_run. cbv zeta. fold table.
  rewrite Hx. simpl.
  assert (Hno : isNoSuchTable e = false).
  { unfold isNoSuchTable. destruct Hnot as [-> | Hc]; [reflexivity|].
    rewrite bool_decide_eq_false_2 by done. apply andb_false_r. }
  by rewrite Hno.
Qed.

(** A call that passes no legacy parameter ([undefined], [null], or an
    options object in which [schema] and [schemaDelimiter] are falsy)
    describes the table of the reference as the generator resolved it: the
    DESCRIBE statement is the only event, no warning comes with it, and a
    non-empty description is the result. *)
Theorem describeTable_plain_call (tableName options : Value) (w : World B) :
  usesDeprecatedPath (heap w) options = false →
  let table := extractTableDetails queryGenerator tableName in
  let sql := describeTableQuery queryGenerator table in
  let qo := describeOptions (heap w) options in
  let run := describeTable queryGenerator sequelize tableName options w in
  legacyTable queryGenerator (heap w) tableName options = table
  ∧ trace run.2 = (trace w ++ [EvQuery sql (Some qo)])%list
  ∧ (∀ data b', execute sequelize sql (Some qo) (backend w) = (Ok data, b') →
       isEmpty (heap run.2) data = false → run.1 = Ok data).
Proof.
  intros Hdep table sql qo run.
  assert (Hrun := describeTable_run queryGenerator sequelize tableName options w).
  cbv zeta in Hrun.
  unfold usesDeprecatedPath in Hdep.
  apply orb_false_iff in Hdep as [Hs Ho].
  assert (Ht : legacyTable queryGenerator (heap w) tableName options = table
               ∧ deprecationWarnings (heap w) options = []).
  { unfold legacyTable, deprecationWarnings. rewrite Hs.
    destruct (isNonNullObject options); [|done]. simpl in Ho.
    apply orb_false_iff in Ho as [-> ->]. done. }
  destruct Ht as [Ht Hw]. rewrite Ht, Hw in Hrun. fold table sql qo run in Hrun.
  split; [done|]. split; [by rewrite Hrun|].
  intros data b' Hx Hne. rewrite Hrun in Hne |- *. simpl in *.
  rewrite Hx. simpl. by rewrite Hne.
Qed.

(** The options of the DESCRIBE statement are the caller's with [type]
    forced: a [type] of the caller is overridden and every other property is
    the caller's. *)
Theorem describeTable_type_forced (tableName options : Value) (w : World B) :
  ∃ (sql : string) (qo : gmap string Value),
    last (trace (describeTable queryGenerator sequelize tableName options w).2)
      = Some (EvQuery sql (Some qo))
    ∧ qo !! "type" = Some (VStr "DESCRIBE")
    ∧ ∀ k : string, k ≠ "type" → qo !! k = ownProps (heap w) options !! k.
Proof.
  eexists _, (describeOptions (heap w) options).
  rewrite describeTable_run. cbv zeta. simpl.
  split; [by rewrite app_assoc, last_snoc|].
  unfold describeOptions. split; [apply lookup_insert_eq|].
  intros k Hk. by rewrite lookup_insert_ne.
Qed.

(** ** Further properties of [showAllSchemas] *)

(** The listing is made for the caller's options and executed with a copy of
    them in which [raw] is [true] and [type] is [SELECT], whatever the caller
    set there; this statement is the only event of the call, whether the call
    goes on to succeed or to fail. *)
Theorem showAllSchemas_options_forced (options : Value) (w : World B) :
  ∃ qo : gmap string Value,
    trace (showAllSchemas queryGenerator sequelize options w).2
      = (trace w ++ [EvQuery (listSchemasQuery queryGenerator (snapshot (heap w) options))
                       (Some qo)])%list
    ∧ qo !! "raw" = Some (VBool true)
    ∧ qo !! "type" = Some (VStr "SELECT")
    ∧ ∀ k : string, k ≠ "raw" → k ≠ "type" → qo !! k = ownProps (heap w) options !! k.
Proof.
  exists (listOptions (heap w) options). split.
  - rewrite showAllSchemas_run. cbv zeta.
    destruct (execute _ _ _ _).1 as [[]|]; try reflexivity.
    by rewrite flatMap_heap.
  - unfold listOptions. split; [by rewrite lookup_insert_ne, lookup_insert_eq|].
    split; [apply lookup_insert_eq|].
    intros k Hr Ht. by rewrite !lookup_insert_ne.
Qed.

Lemma flatMap_nullish (rows : list Value) (w : World B) :
  Exists (λ row, isNullish row = true) rows →
  throwsTypeError (flatMap schemaNameOf rows w).1.
Proof.
  induction rows as [|row rows IH]; intros Hex; [by apply Exists_nil in Hex|].
  simpl. rewrite bind_run.
  destruct (isNullish row) eqn:Hrow.
  - destruct row; try discriminate; simpl; eexists; split; reflexivity.
  - rewrite (schemaNameOf_run _ _ Hrow). simpl. rewrite bind_run.
    apply Exists_cons in Hex as [Hex|Hex]; [congruence|].
    destruct (IH Hex) as (e & He & Hty).
    destruct (flatMap schemaNameOf rows w) as [r w']. simpl in He. subst r.
    by exists e.
Qed.

(** How [showAllSchemas] fails: an error of the execution reaches the caller
    as it is; a result that is not an array, and a row that is [null] or
    [undefined] anywhere in the result, make the call throw a [TypeError]. *)
Theorem showAllSchemas_failures (options : Value) (w : World B) :
  let sql := listSchemasQuery queryGenerator (snapshot (heap w) options) in
  let x := execute sequelize sql (Some (listOptions (heap w) options)) (backend w) in
  let result := (showAllSchemas queryGenerator sequelize options w).1 in
  (∀ e, x.1 = Throw e → result = Throw e)
  ∧ (∀ v, x.1 = Ok v → (∀ rows, v ≠ VArr rows) → throwsTypeError result)
  ∧ (∀ rows, x.1 = Ok (VArr rows) →
       Exists (λ row, isNullish row = true) rows → throwsTypeError result).
Proof.
  intros sql x result. subst result. rewrite showAllSchemas_run. cbv zeta.
  fold sql x. split; [|split].
  - intros e ->. reflexivity.
  - intros v -> Hv. destruct v; try (eexists; split; reflexivity).
    by destruct (Hv elems).
  - intros rows -> Hex. by apply flatMap_nullish.
Qed.

(** Rows that are arrays are spliced into the result, one level deep: the
    result is the concatenation of the rows, so it has as many elements as
    the rows have together, and none for an empty listing. *)
Theorem showAllSchemas_splices_arrays (options : Value) (w : World B)
    (groups : list (list Value)) (b' : B) :
  let sql := listSchemasQuery queryGenerator (snapshot (heap w) options) in
  execute sequelize sql (Some (listOptions (heap w) options)) (backend w)
    = (Ok (VArr (VArr <$> groups)), b') →
  (showAllSchemas queryGenerator sequelize options w).1 = Ok (concat groups).
Proof.
  intros sql Hx. rewrite showAllSchemas_run. cbv zeta. fold sql. rewrite Hx. simpl.
  rewrite flatMap_run.
  - simpl. f_equal. generalize (<[fresh (dom (heap w)) := listOptions (heap w) options]> (heap w)).
    intros h. clear. induction groups as [|g groups IH]; [reflexivity|].
    change (contribution h (VArr g) ++ flat_map (contribution h) (VArr <$> groups)
            = g ++ concat groups)%list.
    by rewrite IH.
  - clear. induction groups; constructor; done.
Qed.
End Operations.

(** ** Further properties of the foreign-key scope *)

Section Scope.
Context {B T : Type}.
Variable queryGenerator : AbstractQueryGenerator.
Variable sequelize : Sequelize B.

Local Abbreviation sqlOff := (getToggleForeignKeyChecksQuery queryGenerator false).
Local Abbreviation sqlOn := (getToggleForeignKeyChecksQuery queryGenerator true).
Local Abbreviation toggle := (unsafeToggleForeignKeyChecks queryGenerator sequelize).

(** When the disabling statement fails, the callback is not called: the
    enabling statement is sent all the same, right after the disabling one,
    and the caller gets the error of the disabling statement unless the
    enabling statement fails too. *)
Theorem disabling_failure_skips_callback (l : loc)
    (cb : option (WithoutForeignKeyChecksCallback B T)) (w w0 : World B) (e0 : JsError) :
  toggle false (VRef l) w = (Throw e0, w0) →
  ∃ r2 w2,
    toggle true (VRef l) w0 = (r2, w2)
    ∧ trace w2 = (trace w ++ [EvQuery sqlOff (snapshot (heap w) (VRef l));
                              EvQuery sqlOn (snapshot (heap w) (VRef l))])%list
    ∧ heap w2 = heap w
    ∧ withoutForeignKeyChecks_ queryGenerator sequelize (VRef l) cb w =
        (match r2 with Ok _ => Throw e0 | Throw e => Throw e end, w2).
Proof.
  intros Hoff.
  destruct (toggle_run queryGenerator sequelize false (VRef l) w) as (r0 & b0 & H0).
  rewrite Hoff in H0. injection H0 as E0 Ew. subst r0 w0.
  destruct (toggle_run queryGenerator sequelize true (VRef l)
              (mkWorld (heap w) (trace w ++ [EvQuery sqlOff (snapshot (heap w) (VRef l))]) b0))
    as (r2 & b2 & H2).
  simpl in H2. eexists r2, _. split; [exact H2|]. simpl.
  split; [by rewrite <- app_assoc|]. split; [reflexivity|].
  rewrite withoutForeignKeyChecks__run, Hoff. simpl. by rewrite H2.
Qed.

(** A call without a callback still runs the scope: both statements are
    executed, and the call then fails with a [TypeError] unless the enabling
    statement fails. *)
Theorem missing_callback_runs_scope (l : loc) (w w0 : World B) :
  toggle false (VRef l) w = (Ok tt, w0) →
  ∃ r2 w2 e,
    toggle true (VRef l) w0 = (r2, w2)
    ∧ isTypeError e = true
    ∧ withoutForeignKeyChecks_ (T := T) queryGenerator sequelize (VRef l) None w =
        (match r2 with Ok _ => Throw e | Throw e2 => Throw e2 end, w2).
Proof.
  intros Hoff.
  destruct (toggle true (VRef l) w0) as [r2 w2] eqn:H2.
  eexists r2, w2, _. split; [reflexivity|]. split; [|
    rewrite withoutForeignKeyChecks__run, Hoff; simpl; rewrite H2; reflexivity].
  reflexivity.
Qed.

(** Only the properties of the options matter, not the object that carries
    them: two option values with the same own properties give the same run,
    and the call shape [(cb)] is the call shape [({}, cb)]. *)
Theorem withoutForeignKeyChecks_call_shapes
    (f : WithoutForeignKeyChecksCallback B T)
    (maybeCallback : option (WithoutForeignKeyChecksCallback B T))
    (v1 v2 : Value) (w : World B) :
  (ownProps (heap w) v1 = ownProps (heap w) v2 →
   withoutForeignKeyChecks queryGenerator sequelize (inl v1) maybeCallback w
   = withoutForeignKeyChecks queryGenerator sequelize (inl v2) maybeCallback w)
  ∧ withoutForeignKeyChecks queryGenerator sequelize (inr f) maybeCallback w
    = withoutForeignKeyChecks queryGenerator sequelize (inl (VObj ∅)) (Some f) w.
Proof.
  split.
  - intros E. rewrite !withoutForeignKeyChecks_run. cbv zeta. simpl. by rewrite E.
  - rewrite !withoutForeignKeyChecks_run. reflexivity.
Qed.
End Scope.

(** ** The foreign-key checks of the backend *)

Section CheckedScope.
Context {B T : Type}.
Variable queryGenerator : AbstractQueryGenerator.
Variable sequelize : Sequelize B.

Local Abbreviation sqlOff := (getToggleForeignKeyChecksQuery queryGenerator false).
Local Abbreviation sqlOn := (getToggleForeignKeyChecksQuery queryGenerator true).
Local Abbreviation toggle := (unsafeToggleForeignKeyChecks queryGenerator sequelize).

(** Whether foreign-key checks are enabled on a connection, as the backend
    knows it. *)
Variable fkChecks : B → Connection → bool.

(** The statement the dialect generates for [enable], run on a connection,
    succeeds and sets the checks of that connection to [enable]. *)
Hypothesis toggle_statement :
  ∀ (enable : bool) (o : gmap string Value) (c : Connection) (b : B),
    lookupProp o "connection" = VConn c →
    ∃ v b',
      execute sequelize (getToggleForeignKeyChecksQuery queryGenerator enable) (Some o) b
        = (Ok v, b')
      ∧ fkChecks b' c = enable.

Lemma toggle_sets (enable : bool) (l : loc) (o : gmap string Value) (c : Connection)
    (w : World B) :
  heap w !! l = Some o →
  lookupProp o "connection" = VConn c →
  ∃ w',
    unsafeToggleForeignKeyChecks queryGenerator sequelize enable (VRef l) w = (Ok tt, w')
    ∧ heap w' = heap w
    ∧ fkChecks (backend w') c = enable.
Proof.
  intros Hl Hc.
  destruct (toggle_statement enable o c (backend w) Hc) as (v & b' & E & F).
  eexists. unfold unsafeToggleForeignKeyChecks.
  rewrite bind_run, queryRaw_run. simpl. rewrite Hl. simpl. rewrite E. simpl.
  split; [reflexivity|]. split; [reflexivity|]. exact F.
Qed.

(** The last toggle wins: after [unsafeToggleForeignKeyChecks(first)] and
    [unsafeToggleForeignKeyChecks(second)] on the same connection the checks
    are what the second call asked for; disabling then enabling restores
    them. *)
Theorem last_toggle_wins (first second : bool) (l : loc) (o : gmap string Value)
    (c : Connection) (w : World B) :
  heap w !! l = Some o →
  lookupProp o "connection" = VConn c →
  ∃ w1 w2,
    unsafeToggleForeignKeyChecks queryGenerator sequelize first (VRef l) w = (Ok tt, w1)
    ∧ unsafeToggleForeignKeyChecks queryGenerator sequelize second (VRef l) w1 = (Ok tt, w2)
    ∧ fkChecks (backend w2) c = second.
Proof.
  intros Hl Hc.
  destruct (toggle_sets first l o c w Hl Hc) as (w1 & H1 & Hh & _).
  destruct (toggle_sets second l o c w1) as (w2 & H2 & _ & F2); [by rewrite Hh | done |].
  by exists w1, w2.
Qed.

(** One obeyed toggle, with the world it leaves. *)
Lemma toggle_obeyed (enable : bool) (l : loc) (o : gmap string Value) (c : Connection)
    (w : World B) :
  heap w !! l = Some o →
  lookupProp o "connection" = VConn c →
  ∃ b',
    unsafeToggleForeignKeyChecks queryGenerator sequelize enable (VRef l) w
      = (Ok tt, mkWorld (heap w)
                  (trace w ++ [EvQuery (getToggleForeignKeyChecksQuery queryGenerator enable)
                                       (Some o)])
                  b')
    ∧ fkChecks b' c = enable.
Proof.
  intros Hl Hc.
  destruct (toggle_statement enable o c (backend w) Hc) as (v & b' & E & F).
  exists b'. unfold unsafeToggleForeignKeyChecks.
  rewrite bind_run, queryRaw_run. simpl. rewrite Hl. simpl. rewrite E. simpl.
  split; [reflexivity | exact F].
Qed.

(** A scope on the connection its options carry.  The callback starts in the
    world the disabling statement left, where the checks are off; the scope
    hands back the outcome of the callback, and the world the callback left
    with one more event, the enabling statement, and the checks on. *)
Lemma checked_scope (l : loc) (o : gmap string Value) (c : Connection)
    (cb : WithoutForeignKeyChecksCallback B T) (w : World B) :
  heap w !! l = Some o →
  lookupProp o "connection" = VConn c →
  callback_keeps (Some cb) l →
  let w0 := (unsafeToggleForeignKeyChecks queryGenerator sequelize false (VRef l) w).2 in
  let rw1 := cb (VConn c) w0 in
  trace w0 = (trace w ++ [EvQuery sqlOff (Some o)])%list
  ∧ fkChecks (backend w0) c = false
  ∧ ∃ b2,
      withoutForeignKeyChecks_ queryGenerator sequelize (VRef l) (Some cb) w
        = (rw1.1, mkWorld (heap rw1.2) (trace rw1.2 ++ [EvQuery sqlOn (Some o)]) b2)
      ∧ fkChecks b2 c = true.
Proof.
  intros Hl Hc Hk w0 rw1.
  destruct (toggle_obeyed false l o c w Hl Hc) as (b0 & H0 & F0).
  assert (E0 : w0 = mkWorld (heap w) (trace w ++ [EvQuery sqlOff (Some o)]) b0).
  { subst w0. by rewrite H0. }
  assert (Hl0 : heap w0 !! l = Some o) by (by rewrite E0).
  assert (Hl1 : heap rw1.2 !! l = Some o).
  { rewrite <- Hl0. apply (Hk (VConn c) w0). by rewrite Hl0. }
  destruct (toggle_obeyed true l o c rw1.2 Hl1 Hc) as (b2 & H2 & F2).
  split; [by rewrite E0|]. split; [by rewrite E0|].
  exists b2. split; [|exact F2].
  rewrite withoutForeignKeyChecks__run, H0. simpl. rewrite Hl. simpl. rewrite Hc.
  rewrite <- E0. fold rw1. destruct rw1 as [r1 w1]. simpl in *. by rewrite H2.
Qed.

(** Handing a connection back to the pool does not change foreign-key
    checks. *)
Hypothesis release_keeps_checks :
  ∀ (c c' : Connection) (b : B), fkChecks (release sequelize c b) c' = fkChecks b c'.

(** [withoutForeignKeyChecks] on a backend that obeys the statements,
    whatever the state of the checks when it is called, on the connection of
    the options or on the leased one.  The callback starts in the world [w0]
    that the disabling statement left, and the checks are off there; the
    call returns the outcome the callback has from [w0], and ends in the
    world the callback left with the closing events added (the enabling
    statement, then the release of a leased connection) and the checks on.
    This holds in particular for a call entered with the checks already off,
    as inside the callback of another scope. *)
Theorem withoutForeignKeyChecks_restores_checks
    (optionsOrCallback : Value + WithoutForeignKeyChecksCallback B T)
    (maybeCallback : option (WithoutForeignKeyChecksCallback B T))
    (cb : WithoutForeignKeyChecksCallback B T) (c : Connection) (w : World B) :
  callbackOf optionsOrCallback maybeCallback = Some cb →
  let l := fresh (dom (heap w)) in
  let o := injected sequelize (optionsCopy (heap w) optionsOrCallback) in
  let h := <[l := o]> (heap w) in
  let l' := fresh (dom h) in
  let oc := <["connection" := VConn c]> o in
  let run := withoutForeignKeyChecks queryGenerator sequelize optionsOrCallback maybeCallback w in
  let restored (w0 : World B) (closing : list Event) :=
    fkChecks (backend w0) c = false
    ∧ ∃ b2,
        run = ((cb (VConn c) w0).1,
               mkWorld (heap (cb (VConn c) w0).2) (trace (cb (VConn c) w0).2 ++ closing) b2)
        ∧ fkChecks b2 c = true in
  (lookupProp o "connection" = VConn c →
   callback_keeps (Some cb) l →
   let w0 := (toggle false (VRef l) (mkWorld h (trace w ++ [EvClsInjection]) (backend w))).2 in
   trace w0 = (trace w ++ [EvClsInjection; EvQuery sqlOff (Some o)])%list
   ∧ restored w0 [EvQuery sqlOn (Some o)])
  ∧ (truthy (lookupProp o "connection") = false →
     ∀ b' : B,
       lease sequelize (backend w) = (Ok c, b') →
       callback_keeps (Some cb) l' →
       let w0 := (toggle false (VRef l')
                    (mkWorld (<[l' := oc]> h) (trace w ++ [EvClsInjection; EvLease c]) b')).2 in
       trace w0 = (trace w ++ [EvClsInjection; EvLease c; EvQuery sqlOff (Some oc)])%list
       ∧ restored w0 [EvQuery sqlOn (Some oc); EvRelease c]).
Proof.
  intros Hcb l o h l' oc run restored. subst restored run.
  rewrite (withoutForeignKeyChecks_run queryGenerator sequelize optionsOrCallback maybeCallback w).
  cbv zeta. fold l o h. rewrite Hcb. split.
  - intros Hc Hk. rewrite Hc. simpl.
    destruct (checked_scope l o c cb (mkWorld h (trace w ++ [EvClsInjection]) (backend w)))
      as (T0 & F0 & b2 & Hrun & F2); [apply lookup_insert_eq | done | done |].
    simpl in T0. rewrite <- app_assoc in T0.
    split; [exact T0|]. split; [exact F0|]. exists b2. by split.
  - intros Hc b' El Hk. rewrite Hc.
    rewrite (withConnection_leased sequelize _
               (mkWorld h (trace w ++ [EvClsInjection]) (backend w)) c b' El).
    cbv zeta. rewrite (leased_scope_run queryGenerator sequelize l o (Some cb) c)
      by apply lookup_insert_eq.
    simpl. fold l' oc.
    destruct (checked_scope l' oc c cb
                (mkWorld (<[l' := oc]> h) ((trace w ++ [EvClsInjection]) ++ [EvLease c]) b'))
      as (T0 & F0 & b2 & Hrun & F2);
      [apply lookup_insert_eq | unfold lookupProp, oc; by rewrite lookup_insert_eq | done |].
    assert (Etr : ((trace w ++ [EvClsInjection]) ++ [EvLease c]
                   = trace w ++ [EvClsInjection; EvLease c])%list)
      by (by rewrite <- app_assoc).
    rewrite Etr in *. simpl in T0. rewrite <- app_assoc in T0.
    split; [exact T0|]. split; [exact F0|].
    exists (release sequelize c b2). rewrite Hrun. simpl. rewrite <- app_assoc.
    split; [reflexivity|]. by rewrite release_keeps_checks.
Qed.
End CheckedScope.

(** ** The properties on concrete runs *)

Section Witnesses.
Import Examples.

(** The callbacks of the examples that create objects of their own write to
    no object that is stored when they are called. *)
Lemma describing_keeps {B : Type} (sequelize : Sequelize B) (l : loc) :
  callback_keeps (Some (describing sequelize)) l.
Proof.
  intros v w Hl. simpl. unfold describing. rewrite describeTable_run. simpl.
  apply lookup_insert_ne. intros E. apply (is_fresh (dom (heap w))). rewrite E.
  by apply elem_of_dom.
Qed.

Lemma nested_keeps {B : Type} (sequelize : Sequelize B)
    (inner : WithoutForeignKeyChecksCallback B Value) (l : loc) :
  callback_keeps (Some inner) l →
  callback_keeps (Some (nested sequelize inner)) l.
Proof.
  intros Hk v w Hl. simpl. unfold nested.
  by apply withoutForeignKeyChecks_keeps.
Qed.

Lemma reenable_runs_once_after_callback_witness :
  let w := pinned [Ok VNull; Ok VNull] in
  let w0 := (unsafeToggleForeignKeyChecks generator scripted false (VRef 1) w).2 in
  ∃ r2 w2,
    unsafeToggleForeignKeyChecks generator scripted true (VRef 1) w0 = (r2, w2)
    ∧ trace w2 =
        (trace w0 ++ [EvQuery "SET FOREIGN_KEY_CHECKS=1"
                        (Some (default ∅ (heap w0 !! 1%positive)))])%list
    ∧ withoutForeignKeyChecks_ generator scripted (VRef 1) (Some boom) w =
        (match r2 with Ok _ => Throw (Error "boom") | Throw e => Throw e end, w2).
Proof.
  intros w w0.
  apply (reenable_runs_once_after_callback generator scripted 1%positive boom w w0 w0
           (Throw (Error "boom"))).
  - vm_compute. reflexivity.
  - vm_compute. reflexivity.
Defined.

(** The callback resolves: its value is handed back after the enabling
    statement. *)
Lemma scope_resolves :
  withoutForeignKeyChecks_ generator scripted (VRef 1) (Some echo) (pinned []) =
    (Ok (VConn 7),
     mkWorld {[ 1%positive := {[ "connection" := VConn 7 ]} ]}
       [EvQuery "SET FOREIGN_KEY_CHECKS=0" (Some {[ "connection" := VConn 7 ]});
        EvQuery "SET FOREIGN_KEY_CHECKS=1" (Some {[ "connection" := VConn 7 ]})]
       []).
Proof. vm_compute. reflexivity. Qed.

(** The disabling statement fails: the callback is not called and the
    enabling statement still runs. *)
Lemma scope_not_entered :
  withoutForeignKeyChecks_ generator scripted (VRef 1) (Some echo)
    (pinned [Throw (Error "read-only")]) =
    (Throw (Error "read-only"),
     mkWorld {[ 1%positive := {[ "connection" := VConn 7 ]} ]}
       [EvQuery "SET FOREIGN_KEY_CHECKS=0" (Some {[ "connection" := VConn 7 ]});
        EvQuery "SET FOREIGN_KEY_CHECKS=1" (Some {[ "connection" := VConn 7 ]})]
       []).
Proof. vm_compute. reflexivity. Qed.

Lemma describeTable_missing_table_witness :
  (describeTable generator scripted (VStr "users") VUndefined (world0 [Ok (VArr [])])).1
    = Throw notFound
  ∧ (describeTable generator scripted (VStr "users") VUndefined (world0 [Throw noSuchTable])).1
    = Throw notFound.
Proof.
  apply (describeTable_missing_table generator scripted scripted (VStr "users") VUndefined
           (world0 [Ok (VArr [])]) (world0 [Throw noSuchTable])
           (VArr []) [] noSuchTable []); reflexivity.
Defined.

(** No connection in the options, and a callback that describes a table on
    the connection it is given, creating an options object of its own:
    connection [7] is leased, both statements and the callback get it, and it
    is released last. *)
Lemma withoutForeignKeyChecks_connection_witness :
  let oc : gmap string Value := {[ "connection" := VConn 7 ]} in
  let script := [Ok VNull; Ok (VObj {[ "id" := VStr "INT" ]})] in
  let run := withoutForeignKeyChecks generator scripted (inr (describing scripted)) None
               (world0 script) in
  ∃ r0 w0 r1 w1 r2 w2,
    unsafeToggleForeignKeyChecks generator scripted false (VRef 2)
      (mkWorld {[ 1%positive := ∅; 2%positive := oc ]} [EvClsInjection; EvLease 7] script)
      = (r0, w0)
    ∧ trace w0 = [EvClsInjection; EvLease 7; EvQuery "SET FOREIGN_KEY_CHECKS=0" (Some oc)]
    ∧ scopeBody (Some (describing scripted)) (VConn 7) r0 w0 = (r1, w1)
    ∧ unsafeToggleForeignKeyChecks generator scripted true (VRef 2) w1 = (r2, w2)
    ∧ trace w2 = (trace w1 ++ [EvQuery "SET FOREIGN_KEY_CHECKS=1" (Some oc)])%list
    ∧ run = (match r2 with Ok _ => r1 | Throw e => Throw e end,
             mkWorld (heap w2) (trace w2 ++ [EvRelease 7]) (backend w2)).
Proof.
  intros oc script run.
  apply (proj1 (proj2 (withoutForeignKeyChecks_connection generator scripted
                         (inr (describing scripted)) None (world0 script))))
    with (b' := script).
  - reflexivity.
  - reflexivity.
  - apply describing_keeps.
Defined.

(** The run of that call: the statement of the callback lies between the two
    toggles, all three on the leased connection. *)
Lemma scope_on_leased_connection :
  let oc : gmap string Value := {[ "connection" := VConn 7 ]} in
  let script := [Ok VNull; Ok (VObj {[ "id" := VStr "INT" ]})] in
  let run := withoutForeignKeyChecks generator scripted (inr (describing scripted)) None
               (world0 script) in
  run.1 = Ok (VObj {[ "id" := VStr "INT" ]})
  ∧ trace run.2 =
      [EvClsInjection; EvLease 7;
       EvQuery "SET FOREIGN_KEY_CHECKS=0" (Some oc);
       EvQuery "DESCRIBE public.users"
         (Some {[ "connection" := VConn 7; "type" := VStr "DESCRIBE" ]});
       EvQuery "SET FOREIGN_KEY_CHECKS=1" (Some oc);
       EvRelease 7].
Proof. vm_compute. split; reflexivity. Qed.

(** The options carry connection [7]: nothing is leased, nothing released. *)
Lemma scope_on_given_connection :
  trace (withoutForeignKeyChecks generator scripted (inl (VRef 1)) (Some echo) (pinned [])).2 =
    [EvClsInjection;
     EvQuery "SET FOREIGN_KEY_CHECKS=0" (Some {[ "connection" := VConn 7 ]});
     EvQuery "SET FOREIGN_KEY_CHECKS=1" (Some {[ "connection" := VConn 7 ]})].
Proof. vm_compute. reflexivity. Qed.

Lemma restoration_failure_is_surfaced_witness :
  let w := pinned [Ok VNull; Throw (Error "restore failed")] in
  let surfaced := (withoutForeignKeyChecks_ generator scripted (VRef 1) (Some boom) w).1 in
  (∀ e2, @Throw unit (Error "restore failed") = Throw e2 → surfaced = Throw e2)
  ∧ (@Throw unit (Error "restore failed") = Ok tt → surfaced = Throw (Error "boom")).
Proof.
  intros w.
  pose (w0 := (unsafeToggleForeignKeyChecks generator scripted false (VRef 1) w).2).
  pose (w2 := (unsafeToggleForeignKeyChecks generator scripted true (VRef 1) w0).2).
  apply (restoration_failure_is_surfaced generator scripted 1%positive boom w w0 w0 w2
           (Throw (Error "boom")) (Throw (Error "restore failed")));
    vm_compute; reflexivity.
Defined.

(** The callback throws, the restoration fails: the restoration error is the
    one the caller sees, and it is not the callback's. *)
Lemma original_error_not_surfaced :
  let w := pinned [Ok VNull; Throw (Error "restore failed")] in
  let surfaced := (withoutForeignKeyChecks_ generator scripted (VRef 1) (Some boom) w).1 in
  surfaced = Throw (Error "restore failed") ∧ surfaced ≠ Throw (Error "boom").
Proof. vm_compute. split; [reflexivity | discriminate]. Qed.

Lemma dropSchema_both_forms_witness :
  let plain := EvQuery "DROP SCHEMA shop" None in
  let pair := EvQuery "DROP SCHEMA shop" (Some {[ "bind" := VArr [] ]}) in
  (trace (dropSchema generator scripted "shop" VUndefined (world0 [])).2 = [plain]
   ∧ heap (dropSchema generator scripted "shop" VUndefined (world0 [])).2 = ∅)
  ∧ trace (dropSchema pairGenerator scripted "shop" VUndefined (world0 [])).2 = [pair]
  ∧ (noParameters (VArr []) = true →
     noParameters (bindParameters None) = true →
     equivalentStatements plain pair).
Proof.
  apply (dropSchema_both_forms generator pairGenerator scripted "shop" "DROP SCHEMA shop"
           (VArr []) VUndefined (world0 [])); reflexivity.
Defined.

(** The caller binds a parameter of its own: the plain form executes the
    statement with it, the pair form with none. *)
Lemma dropSchema_forms_differ :
  let options := VObj {[ "bind" := VArr [VNum 1] ]} in
  ∃ plain pair,
    trace (dropSchema generator scripted "shop" options (world0 [])).2 = [plain]
    ∧ trace (dropSchema pairGenerator scripted "shop" options (world0 [])).2 = [pair]
    ∧ ¬ equivalentStatements plain pair.
Proof.
  eexists _, _. split; [vm_compute; reflexivity|]. split; [vm_compute; reflexivity|].
  intros (_ & _ & [H | [H _]]); vm_compute in H; discriminate.
Qed.

Lemma showAllSchemas_flattens_witness :
  let rows := [VObj {[ "schema_name" := VStr "public" ]}; VObj {[ "schema_name" := VStr "app" ]}] in
  (showAllSchemas generator scripted VUndefined (world0 [Ok (VArr rows)])).1
    = Ok [VStr "public"; VStr "app"].
Proof.
  intros rows.
  apply (proj2 (showAllSchemas_flattens generator scripted VUndefined
                  (world0 [Ok (VArr rows)]) rows [] eq_refl) ["public"; "app"]).
  assert (named : ∀ s : string, s ≠ "" → names (VObj {[ "schema_name" := VStr s ]}) s).
  { intros s Hs. right. eexists. split; [reflexivity|]. split; [|exact Hs].
    apply lookup_singleton_eq. }
  constructor; [by apply named|].
  constructor; [by apply named|].
  constructor.
Defined.

Lemma showAllSchemas_bare_values :
  (showAllSchemas generator scripted VUndefined
     (world0 [Ok (VArr [VStr "public"; VStr "app"])])).1
    = Ok [VStr "public"; VStr "app"].
Proof. vm_compute. reflexivity. Qed.

(** A mapping whose [schema_name] is the empty string contributes itself, not
    the value of its key. *)
Lemma showAllSchemas_empty_schema_name :
  let row := VObj {[ "schema_name" := VStr "" ]} in
  let result := (showAllSchemas generator scripted VUndefined (world0 [Ok (VArr [row])])).1 in
  result = Ok [row] ∧ result ≠ Ok [VStr ""].
Proof. vm_compute. split; [reflexivity | discriminate]. Qed.

Lemma describeTable_deprecated_path_witness :
  let run := describeTable generator scripted (VStr "users") (VRef 1)
               (legacy [Ok (VObj {[ "id" := VStr "INT" ]})]) in
  trace run.2 =
    [EvDeprecation "noSchemaParameter"; EvDeprecation "noSchemaDelimiterParameter";
     EvQuery "DESCRIBE shop_users"
       (Some {[ "schema" := VStr "shop"; "schemaDelimiter" := VStr "_";
                "type" := VStr "DESCRIBE" ]})]
  ∧ run.1 = Ok (VObj {[ "id" := VStr "INT" ]}).
Proof.
  intros run.
  destruct (describeTable_deprecated_path generator scripted (VStr "users") (VRef 1)
              (legacy [Ok (VObj {[ "id" := VStr "INT" ]})]) eq_refl)
    as (_ & _ & _ & _ & _ & Htrace & Hresult).
  subst run. split.
  - rewrite Htrace. vm_compute. reflexivity.
  - apply (Hresult _ []); vm_compute; reflexivity.
Defined.

(** An options object carrying the empty string as [schema]: no warning, and
    the table keeps the schema of its reference. *)
Lemma describeTable_empty_schema_ignored :
  trace (describeTable generator scripted (VStr "users") (VObj {[ "schema" := VStr "" ]})
           (world0 [Ok (VObj {[ "id" := VStr "INT" ]})])).2
    = [EvQuery "DESCRIBE public.users"
         (Some {[ "schema" := VStr ""; "type" := VStr "DESCRIBE" ]})]
  ∧ schema (legacyTable generator ∅ (VStr "users") (VObj {[ "schema" := VStr "" ]}))
    ≠ VStr "".
Proof. vm_compute. split; [reflexivity | discriminate]. Qed.


(** Inside transaction [5] and without a connection of its own, with a
    callback that creates an object of its own: the call leaves the caller's
    [{ raw: true }] as it is; the statements ran with the transaction and the
    leased connection. *)
Lemma caller_options_not_mutated_witness :
  let run := withoutForeignKeyChecks generator ambient (inl (VRef 1))
               (Some (describing ambient)) (calling []) in
  heap run.2 !! 1%positive = Some {[ "raw" := VBool true ]}.
Proof.
  intros run.
  refine (proj2 (proj2 (proj2 (proj2
    (caller_options_not_mutated generator ambient 1%positive {[ "raw" := VBool true ]}
       (Some (describing ambient)) (calling []) eq_refl _))))).
  apply describing_keeps.
Defined.

Lemma caller_options_copy_injected :
  trace (withoutForeignKeyChecks generator ambient (inl (VRef 1)) (Some echo) (calling [])).2 =
    let scoped : gmap string Value :=
      {[ "raw" := VBool true; "transaction" := VTxn 5; "connection" := VConn 7 ]} in
    [EvClsInjection; EvLease 7;
     EvQuery "SET FOREIGN_KEY_CHECKS=0" (Some scoped);
     EvQuery "SET FOREIGN_KEY_CHECKS=1" (Some scoped);
     EvRelease 7].
Proof. vm_compute. reflexivity. Qed.

(** On the flag-keeping backend, which obeys the enabling statement. *)
Lemma unsafeToggleForeignKeyChecks_enable_twice_witness :
  let run1 := unsafeToggleForeignKeyChecks generator flagged true (VRef 1) flaggedWorld in
  let run2 := unsafeToggleForeignKeyChecks generator flagged true (VRef 1) run1.2 in
  run1.1 = Ok tt
  ∧ run2.1 = Ok tt
  ∧ flagOf (backend run1.2) 7 = true
  ∧ flagOf (backend run2.2) 7 = true.
Proof.
  intros run1 run2.
  apply (proj2 (unsafeToggleForeignKeyChecks_enable_twice generator flagged flagOf 1%positive
                  {[ "connection" := VConn 7 ]} 7%nat flaggedWorld eq_refl eq_refl)).
  intros o c b Hc. simpl. rewrite Hc. simpl.
  eexists _, _. split; [reflexivity|]. unfold flagOf. by rewrite lookup_insert_eq.
Defined.

(** A backend that rejects the enabling statement while the checks are on:
    the first call enables the checks, the second one fails. *)
Lemma unsafeToggleForeignKeyChecks_second_enable_refused :
  let run1 := unsafeToggleForeignKeyChecks generator strict true (VRef 1) flaggedWorld in
  let run2 := unsafeToggleForeignKeyChecks generator strict true (VRef 1) run1.2 in
  run1.1 = Ok tt
  ∧ flagOf (backend run1.2) 7 = true
  ∧ run2.1 = Throw (Error "foreign key checks are already enabled").
Proof. vm_compute. repeat split. Qed.

(** The backend reports the code of a missing table on an error that is not
    a [BaseError]: the error is rethrown as it is, and the caller does not get
    the error of the empty description. *)
Lemma describeTable_code_on_plain_error :
  let empty :=
    (describeTable generator scripted (VStr "users") VUndefined (world0 [Ok (VArr [])])).1 in
  let coded :=
    (describeTable generator scripted (VStr "users") VUndefined (world0 [Throw foreign])).1 in
  causeCode foreign = Some "ER_NO_SUCH_TABLE"
  ∧ empty = Throw notFound
  ∧ coded = Throw foreign
  ∧ coded ≠ empty.
Proof. vm_compute. split; [|split; [|split]]; try reflexivity. discriminate. Qed.
End Witnesses.

(** ** The further properties on concrete runs *)

Section FurtherWitnesses.
Import Examples.

Lemma flagged_obeys (enable : bool) (o : gmap string Value) (c : Connection)
    (b : gmap nat bool) :
  lookupProp o "connection" = VConn c →
  ∃ v b',
    execute flagged (getToggleForeignKeyChecksQuery generator enable) (Some o) b = (Ok v, b')
    ∧ flagOf b' c = enable.
Proof.
  intros Hc. simpl. rewrite Hc.
  destruct enable; simpl; eexists _, _; (split; [reflexivity|]);
    unfold flagOf; by rewrite lookup_insert_eq.
Defined.

(** A plain error with the code of a missing table is not rewritten. *)
Lemma describeTable_rethrows_witness :
  (describeTable generator scripted (VStr "users") VUndefined (world0 [Throw foreign])).1
    = Throw foreign.
Proof.
  apply (describeTable_rethrows generator scripted (VStr "users") VUndefined
           (world0 [Throw foreign]) foreign []).
  - reflexivity.
  - left. reflexivity.
Defined.

(** [null] as options: no property of it is read. *)
Lemma describeTable_plain_call_witness :
  let run := describeTable generator scripted (VStr "users") VNull
               (world0 [Ok (VObj {[ "id" := VStr "INT" ]})]) in
  trace run.2 = [EvQuery "DESCRIBE public.users" (Some {[ "type" := VStr "DESCRIBE" ]})]
  ∧ run.1 = Ok (VObj {[ "id" := VStr "INT" ]}).
Proof.
  intros run.
  destruct (describeTable_plain_call generator scripted (VStr "users") VNull
              (world0 [Ok (VObj {[ "id" := VStr "INT" ]})]) eq_refl)
    as (_ & Htrace & Hresult).
  subst run. split.
  - rewrite Htrace. vm_compute. reflexivity.
  - apply (Hresult _ []); vm_compute; reflexivity.
Defined.

Lemma showAllSchemas_failures_witness :
  throwsTypeError
    (showAllSchemas generator scripted VUndefined
       (world0 [Ok (VArr [VStr "public"; VNull])])).1.
Proof.
  apply (proj2 (proj2 (showAllSchemas_failures generator scripted VUndefined
                         (world0 [Ok (VArr [VStr "public"; VNull])])))
           [VStr "public"; VNull]).
  - reflexivity.
  - apply Exists_cons_tl, Exists_cons_hd. reflexivity.
Defined.

Lemma showAllSchemas_splices_arrays_witness :
  (showAllSchemas generator scripted VUndefined
     (world0 [Ok (VArr [VArr [VStr "a"; VStr "b"]; VArr []; VArr [VStr "c"]])])).1
    = Ok [VStr "a"; VStr "b"; VStr "c"].
Proof.
  apply (showAllSchemas_splices_arrays generator scripted VUndefined
           (world0 [Ok (VArr [VArr [VStr "a"; VStr "b"]; VArr []; VArr [VStr "c"]])])
           [[VStr "a"; VStr "b"]; []; [VStr "c"]] []).
  reflexivity.
Defined.

Lemma disabling_failure_skips_callback_witness :
  let w := pinned [Throw (Error "read-only")] in
  let w0 := (unsafeToggleForeignKeyChecks generator scripted false (VRef 1) w).2 in
  ∃ r2 w2,
    unsafeToggleForeignKeyChecks generator scripted true (VRef 1) w0 = (r2, w2)
    ∧ trace w2 = (trace w ++ [EvQuery "SET FOREIGN_KEY_CHECKS=0" (snapshot (heap w) (VRef 1));
                              EvQuery "SET FOREIGN_KEY_CHECKS=1" (snapshot (heap w) (VRef 1))])%list
    ∧ heap w2 = heap w
    ∧ withoutForeignKeyChecks_ generator scripted (VRef 1) (Some boom) w =
        (match r2 with Ok _ => Throw (Error "read-only") | Throw e => Throw e end, w2).
Proof.
  intros w w0.
  apply (disabling_failure_skips_callback generator scripted 1%positive (Some boom) w w0
           (Error "read-only")).
  vm_compute. reflexivity.
Defined.

Lemma missing_callback_runs_scope_witness :
  let w := pinned [] in
  let w0 := (unsafeToggleForeignKeyChecks generator scripted false (VRef 1) w).2 in
  ∃ r2 w2 e,
    unsafeToggleForeignKeyChecks generator scripted true (VRef 1) w0 = (r2, w2)
    ∧ isTypeError e = true
    ∧ withoutForeignKeyChecks_ (T := Value) generator scripted (VRef 1) None w =
        (match r2 with Ok _ => Throw e | Throw e2 => Throw e2 end, w2).
Proof.
  intros w w0.
  apply (missing_callback_runs_scope (T := Value) generator scripted 1%positive w w0).
  vm_compute. reflexivity.
Defined.

Lemma withoutForeignKeyChecks_call_shapes_witness :
  withoutForeignKeyChecks generator scripted (inl VUndefined) (Some echo) (world0 [])
  = withoutForeignKeyChecks generator scripted (inl (VObj ∅)) (Some echo) (world0 []).
Proof.
  apply (proj1 (withoutForeignKeyChecks_call_shapes generator scripted echo (Some echo)
                  VUndefined (VObj ∅) (world0 []))).
  reflexivity.
Defined.

(** Disabling, then enabling: the checks of connection [7] are on. *)
Lemma last_toggle_wins_witness :
  ∃ w1 w2,
    unsafeToggleForeignKeyChecks generator flagged false (VRef 1) flaggedWorld = (Ok tt, w1)
    ∧ unsafeToggleForeignKeyChecks generator flagged true (VRef 1) w1 = (Ok tt, w2)
    ∧ flagOf (backend w2) 7 = true.
Proof.
  apply (last_toggle_wins generator flagged flagOf flagged_obeys false true 1%positive
           {[ "connection" := VConn 7 ]} 7%nat flaggedWorld); reflexivity.
Defined.

(** A call made where the checks are already off, with a callback that opens
    a scope of its own on the same connection: the checks are off when the
    callback starts and on when the call ends. *)
Lemma withoutForeignKeyChecks_restores_checks_witness :
  let oc : gmap string Value := {[ "connection" := VConn 7 ]} in
  let cb := nested flagged answer in
  let run := withoutForeignKeyChecks generator flagged (inl (VRef 1)) (Some cb) flaggedWorld in
  let w0 := (unsafeToggleForeignKeyChecks generator flagged false (VRef 2)
               (mkWorld {[ 1%positive := oc; 2%positive := oc ]} [EvClsInjection]
                        {[ 7%nat := false ]})).2 in
  trace w0 = [EvClsInjection; EvQuery "SET FOREIGN_KEY_CHECKS=0" (Some oc)]
  ∧ flagOf (backend w0) 7 = false
  ∧ ∃ b2,
      run = ((cb (VConn 7) w0).1,
             mkWorld (heap (cb (VConn 7) w0).2)
                     (trace (cb (VConn 7) w0).2
                        ++ [EvQuery "SET FOREIGN_KEY_CHECKS=1" (Some oc)]) b2)
      ∧ flagOf b2 7 = true.
Proof.
  intros oc cb run w0.
  apply (proj1 (withoutForeignKeyChecks_restores_checks generator flagged flagOf flagged_obeys
                  (λ _ _ _, eq_refl) (inl (VRef 1)) (Some cb) cb 7%nat flaggedWorld
                  eq_refl)).
  - reflexivity.
  - apply nested_keeps. intros v w _. reflexivity.
Defined.

(** Scopes do not nest: the scope opened inside the callback leaves the
    checks on for the rest of the outer callback. *)
Lemma inner_scope_enables_checks :
  let oc : gmap string Value := {[ "connection" := VConn 7 ]} in
  let w0 := (unsafeToggleForeignKeyChecks generator flagged false (VRef 2)
               (mkWorld {[ 1%positive := oc; 2%positive := oc ]} [EvClsInjection]
                        {[ 7%nat := false ]})).2 in
  flagOf (backend w0) 7 = false
  ∧ flagOf (backend (nested flagged answer (VConn 7) w0).2) 7 = true.
Proof. vm_compute. split; reflexivity. Qed.
End FurtherWitnesses.
